(** * The device registry of the proxy kernel-mode driver

    Shallow embedding of [proxy-wddm/kmd/ljb_dxgk_create_device.c]:
    [LJB_DXGK_CreateDevice] forwards DxgkDdiCreateDevice to the inbox
    driver and tracks the device it created in a shadow [LJB_DEVICE];
    [LJB_DXGK_FindDevice] looks a shadow record up by the handle the
    inbox driver assigned.

    The two functions are written in a state monad over a [Machine]: the
    non-paged pool holding the [LJB_DEVICE] blocks, the global device
    list with its spin lock, and the IRQL of the calling processor.  Each
    run also yields the list of [Event]s it performed, in program order.
    The diagnostic output ([DBG_PRINT]) and the [PAGED_CODE] assertion
    have no counterpart here. *)

From stdpp Require Import gmap list.

Open Scope Z_scope.

(** ** Platform types *)

Definition HANDLE := Z.
Definition NTSTATUS := Z.
Definition KIRQL := Z.

Definition NULL : Z := 0.

(** [NTSTATUS] is a signed 32-bit value; [NT_SUCCESS] is the sign test. *)
Definition NT_SUCCESS (Status : NTSTATUS) : bool := 0 <=? Status.

(** 0xC0000017 read as a signed 32-bit value. *)
Definition STATUS_NO_MEMORY : NTSTATUS := 0xC0000017 - 0x100000000.

Definition DISPATCH_LEVEL : KIRQL := 2.

Definition DXGKDDI_INTERFACE_VERSION_WDDM2_0 : Z := 0x5023.

(** The block a driver publishes through [pInfo]; the shim only copies
    it as a whole. *)
Record DXGK_DEVICEINFO := {
  DmaBufferSize : Z;
  DmaBufferSegmentSet : Z;
  DmaBufferPrivateDataSize : Z;
  AllocationListSize : Z;
  PatchLocationListSize : Z;
  InfoFlags : Z
}.

Definition DXGK_DEVICEINFO_zero : DXGK_DEVICEINFO :=
  {| DmaBufferSize := 0; DmaBufferSegmentSet := 0;
     DmaBufferPrivateDataSize := 0; AllocationListSize := 0;
     PatchLocationListSize := 0; InfoFlags := 0 |}.

(** ** The creation request, DXGKARG_CREATEDEVICE

    The WDK header d3dkmddi.h declares the request as
<<
    typedef struct _DXGKARG_CREATEDEVICE {
        HANDLE hDevice;                     // in: runtime handle, out: driver handle
        union {
            DXGK_CREATEDEVICEFLAGS Flags;   // in
            DXGK_DEVICEINFO       *pInfo;   // out
        };
        ULONG  Pasid;                       // in, WDDM 2.0 and later
        HANDLE hKmdProcess;                 // in, WDDM 2.0 and later
    } DXGKARG_CREATEDEVICE;
>>
    [Flags] (a 32-bit word, [Flags.Value]) and [pInfo] (a pointer) are two
    views of one pointer-sized slot.  The record keeps that slot as
    [FlagsOrInfo]: [pInfo] reads all of it, [Flags] its 32 low bits, and a
    store to [Flags] replaces the 32 low bits and leaves the rest. *)
Module DXGKARG.

Record CREATEDEVICE := {
  hDevice : HANDLE;
  FlagsOrInfo : Z;
  Pasid : Z;
  hKmdProcess : HANDLE
}.

Definition zero : CREATEDEVICE :=
  {| hDevice := 0; FlagsOrInfo := 0; Pasid := 0; hKmdProcess := 0 |}.

Definition Flags (a : CREATEDEVICE) : Z := Z.land (FlagsOrInfo a) 0xFFFFFFFF.

Definition pInfo (a : CREATEDEVICE) : Z := FlagsOrInfo a.

Definition set_hDevice (v : HANDLE) (a : CREATEDEVICE) : CREATEDEVICE :=
  {| hDevice := v; FlagsOrInfo := FlagsOrInfo a;
     Pasid := Pasid a; hKmdProcess := hKmdProcess a |}.

Definition set_Flags (v : Z) (a : CREATEDEVICE) : CREATEDEVICE :=
  {| hDevice := hDevice a;
     FlagsOrInfo := Z.lor (Z.ldiff (FlagsOrInfo a) 0xFFFFFFFF)
                          (Z.land v 0xFFFFFFFF);
     Pasid := Pasid a; hKmdProcess := hKmdProcess a |}.

Definition set_pInfo (v : Z) (a : CREATEDEVICE) : CREATEDEVICE :=
  {| hDevice := hDevice a; FlagsOrInfo := v;
     Pasid := Pasid a; hKmdProcess := hKmdProcess a |}.

Definition set_Pasid (v : Z) (a : CREATEDEVICE) : CREATEDEVICE :=
  {| hDevice := hDevice a; FlagsOrInfo := FlagsOrInfo a;
     Pasid := v; hKmdProcess := hKmdProcess a |}.

Definition set_hKmdProcess (v : HANDLE) (a : CREATEDEVICE) : CREATEDEVICE :=
  {| hDevice := hDevice a; FlagsOrInfo := FlagsOrInfo a;
     Pasid := Pasid a; hKmdProcess := v |}.

End DXGKARG.

Abbreviation DXGKARG_CREATEDEVICE := DXGKARG.CREATEDEVICE.

(** ** The inbox driver's entry point

    [DxgkDdiCreateDevice] receives the adapter handle and the request,
    mutates the request in place and returns a status.  A call is
    described by what it leaves behind: the status, the request as the
    driver left it, and [ddi_info], what [*pCreateDevice->pInfo] reads
    after the call.  Reading through the pointer is taken to succeed
    wherever the shim does it. *)
Record DDI_RETURN := {
  ddi_status : NTSTATUS;
  ddi_arg : DXGKARG_CREATEDEVICE;
  ddi_info : DXGK_DEVICEINFO
}.

Record DRIVER_INITIALIZATION_DATA := {
  Version : Z;
  DxgkDdiCreateDevice : HANDLE -> DXGKARG_CREATEDEVICE -> DDI_RETURN
}.

Record LJB_CLIENT_DRIVER_DATA := {
  DriverInitData : DRIVER_INITIALIZATION_DATA
}.

Record LJB_ADAPTER := {
  ClientDriverData : LJB_CLIENT_DRIVER_DATA
}.

(** ** The shadow record *)

(** Modelled from the spec: ljb_proxykmd.h, which declares [LJB_DEVICE],
    is not among the sources.  The record has the members the two
    functions access, which are the attributes of the Shadow Device of
    the specification: [hRTDevice] (runtime handle), [hDevice] (driver
    handle), [Adapter] (non-owning reference to the adapter context),
    [CreateDevice] (snapshot of the creation request) and [DeviceInfo].
    Its [ListEntry] member, the intrusive link of the registry, is
    represented by the record's position in [ClientDeviceListHead]. *)
Record LJB_DEVICE := {
  hRTDevice : HANDLE;
  Adapter : Z;
  CreateDevice : DXGKARG_CREATEDEVICE;
  hDevice : HANDLE;
  DeviceInfo : DXGK_DEVICEINFO
}.

Definition LJB_DEVICE_zero : LJB_DEVICE :=
  {| hRTDevice := 0; Adapter := NULL; CreateDevice := DXGKARG.zero;
     hDevice := 0; DeviceInfo := DXGK_DEVICEINFO_zero |}.

Definition set_hRTDevice (v : HANDLE) (d : LJB_DEVICE) : LJB_DEVICE :=
  {| hRTDevice := v; Adapter := Adapter d; CreateDevice := CreateDevice d;
     hDevice := hDevice d; DeviceInfo := DeviceInfo d |}.

Definition set_Adapter (v : Z) (d : LJB_DEVICE) : LJB_DEVICE :=
  {| hRTDevice := hRTDevice d; Adapter := v; CreateDevice := CreateDevice d;
     hDevice := hDevice d; DeviceInfo := DeviceInfo d |}.

Definition upd_CreateDevice (f : DXGKARG_CREATEDEVICE -> DXGKARG_CREATEDEVICE)
    (d : LJB_DEVICE) : LJB_DEVICE :=
  {| hRTDevice := hRTDevice d; Adapter := Adapter d;
     CreateDevice := f (CreateDevice d);
     hDevice := hDevice d; DeviceInfo := DeviceInfo d |}.

Definition set_hDevice (v : HANDLE) (d : LJB_DEVICE) : LJB_DEVICE :=
  {| hRTDevice := hRTDevice d; Adapter := Adapter d;
     CreateDevice := CreateDevice d;
     hDevice := v; DeviceInfo := DeviceInfo d |}.

Definition set_DeviceInfo (v : DXGK_DEVICEINFO) (d : LJB_DEVICE) : LJB_DEVICE :=
  {| hRTDevice := hRTDevice d; Adapter := Adapter d;
     CreateDevice := CreateDevice d;
     hDevice := hDevice d; DeviceInfo := v |}.

(** The members of [LJB_DEVICE] a store can name. *)
Inductive Member :=
  | m_ListEntry
  | m_hRTDevice
  | m_Adapter
  | m_CreateDevice_hDevice
  | m_CreateDevice_Flags
  | m_CreateDevice_Pasid
  | m_CreateDevice_hKmdProcess
  | m_hDevice
  | m_DeviceInfo.

Global Instance Member_eq_dec : EqDecision Member.
Proof. solve_decision. Defined.

(** ** Machine state and events *)

(** [GlobalDriverData]: the ring of [LIST_ENTRY] links hanging off
    [ClientDeviceListHead] is kept as the sequence of the blocks it
    links, from [ClientDeviceListHead.Flink] onwards; the lock field says
    whether the running thread holds [ClientDeviceListLock]. *)
Record LJB_GLOBAL_DRIVER_DATA := {
  ClientDeviceListHead : list Z;
  ClientDeviceListLock : bool
}.

Record Machine := {
  GlobalDriverData : LJB_GLOBAL_DRIVER_DATA;
  NonPagedPool : gmap Z LJB_DEVICE;
  Irql : KIRQL
}.

Inductive Event :=
  | EvGetPoolZero (block : Z)
  | EvFreePool (block : Z)
  | EvStore (block : Z) (member : Member)
  | EvDdiCreateDevice (hAdapter : HANDLE) (arg : DXGKARG_CREATEDEVICE)
  | EvKeAcquireSpinLock
  | EvKeReleaseSpinLock
  | EvInsertTailList (block : Z)
  | EvVisit (block : Z).

Definition with_pool (pool : gmap Z LJB_DEVICE) (m : Machine) : Machine :=
  {| GlobalDriverData := GlobalDriverData m; NonPagedPool := pool;
     Irql := Irql m |}.

Definition with_list (l : list Z) (m : Machine) : Machine :=
  {| GlobalDriverData :=
       {| ClientDeviceListHead := l;
          ClientDeviceListLock := ClientDeviceListLock (GlobalDriverData m) |};
     NonPagedPool := NonPagedPool m; Irql := Irql m |}.

Definition with_lock (held : bool) (irql : KIRQL) (m : Machine) : Machine :=
  {| GlobalDriverData :=
       {| ClientDeviceListHead := ClientDeviceListHead (GlobalDriverData m);
          ClientDeviceListLock := held |};
     NonPagedPool := NonPagedPool m; Irql := irql |}.

(** The state monad: a computation maps a machine to its result, the
    machine it leaves and the events it performed. *)
Definition M (A : Type) : Type := Machine -> A * Machine * list Event.

Global Instance M_ret : MRet M := fun A x m => (x, m, []).

Global Instance M_bind : MBind M := fun A B f c m =>
  let '(a, m1, t1) := c m in
  let '(b, m2, t2) := f a m1 in
  (b, m2, t1 ++ t2).

Definition emit (e : Event) : M unit := fun m => (tt, m, [e]).

(** What a block of the pool reads as. *)
Definition deref (pool : gmap Z LJB_DEVICE) (p : Z) : LJB_DEVICE :=
  default LJB_DEVICE_zero (pool !! p).

Definition load (p : Z) : M LJB_DEVICE :=
  fun m => (deref (NonPagedPool m) p, m, []).

Definition store (p : Z) (member : Member) (f : LJB_DEVICE -> LJB_DEVICE) : M unit :=
  fun m => (tt, with_pool (alter f p (NonPagedPool m)) m, [EvStore p member]).

(** [InitializeListHead(&MyDevice->ListEntry)] makes the entry a ring of
    its own; the registry sequence is untouched. *)
Definition InitializeListHead (p : Z) : M unit :=
  fun m => (tt, m, [EvStore p m_ListEntry]).

Definition InsertTailList (p : Z) : M unit :=
  fun m => (tt, with_list (ClientDeviceListHead (GlobalDriverData m) ++ [p]) m,
            [EvInsertTailList p]).

(** The model follows one thread: [KeAcquireSpinLock] returns once that
    thread owns the lock, at DISPATCH_LEVEL, with the previous IRQL. *)
Definition KeAcquireSpinLock : M KIRQL :=
  fun m => (Irql m, with_lock true DISPATCH_LEVEL m, [EvKeAcquireSpinLock]).

Definition KeReleaseSpinLock (oldIrql : KIRQL) : M unit :=
  fun m => (tt, with_lock false oldIrql m, [EvKeReleaseSpinLock]).

(** Modelled from the spec: the pool primitive [LJB_PROXYKMD_FreePool]
    is missing from the sources; it releases the block, which leaves
    the pool. *)
Definition LJB_PROXYKMD_FreePool (p : Z) : M unit :=
  fun m => (tt, with_pool (delete p (NonPagedPool m)) m, [EvFreePool p]).

Section Shim.

(** Modelled from the spec: the adapter lookup
    [FIND_ADAPTER_BY_DRIVER_ADAPTER] and the adapter contexts it
    resolves to are external collaborators, missing from the sources;
    the lookup maps the opaque adapter handle to the address of an
    adapter context, [LJB_ADAPTER_at] reads the context there. *)
Variable FIND_ADAPTER_BY_DRIVER_ADAPTER : HANDLE -> Z.
Variable LJB_ADAPTER_at : Z -> LJB_ADAPTER.

(** Modelled from the spec: the pool primitive
    [LJB_PROXYKMD_GetPoolZero] is missing from the sources.  It either
    fails, returning NULL, or hands out a zero-initialised block;
    [PoolChoice] is the address it picks for a given pool. *)
Variable PoolChoice : gmap Z LJB_DEVICE -> Z.

Definition LJB_PROXYKMD_GetPoolZero : M Z :=
  fun m =>
    let p := PoolChoice (NonPagedPool m) in
    if p =? NULL then (NULL, m, [EvGetPoolZero NULL])
    else (p, with_pool (<[p := LJB_DEVICE_zero]> (NonPagedPool m)) m,
          [EvGetPoolZero p]).

Definition call_DxgkDdiCreateDevice (DriverInitData : DRIVER_INITIALIZATION_DATA)
    (hAdapter : HANDLE) (pCreateDevice : DXGKARG_CREATEDEVICE) : M DDI_RETURN :=
  fun m => (DxgkDdiCreateDevice DriverInitData hAdapter pCreateDevice, m,
            [EvDdiCreateDevice hAdapter pCreateDevice]).

(** [LJB_DXGK_CreateDevice] returns its status together with the
    request block as the caller finds it afterwards. *)
Definition LJB_DXGK_CreateDevice (hAdapter : HANDLE)
    (pCreateDevice : DXGKARG_CREATEDEVICE) : M (NTSTATUS * DXGKARG_CREATEDEVICE) :=
  let Adapter := FIND_ADAPTER_BY_DRIVER_ADAPTER hAdapter in
  let ClientDriverData := ClientDriverData (LJB_ADAPTER_at Adapter) in
  let DriverInitData := DriverInitData ClientDriverData in
  MyDevice ← LJB_PROXYKMD_GetPoolZero;
  if MyDevice =? NULL then
    mret (STATUS_NO_MEMORY, pCreateDevice)
  else
    InitializeListHead MyDevice;;
    store MyDevice m_hRTDevice (set_hRTDevice (DXGKARG.hDevice pCreateDevice));;
    store MyDevice m_Adapter (set_Adapter Adapter);;
    store MyDevice m_CreateDevice_hDevice
      (upd_CreateDevice (DXGKARG.set_hDevice (DXGKARG.hDevice pCreateDevice)));;
    store MyDevice m_CreateDevice_Flags
      (upd_CreateDevice (DXGKARG.set_Flags (DXGKARG.Flags pCreateDevice)));;
    (if DXGKDDI_INTERFACE_VERSION_WDDM2_0 <=? Version DriverInitData then
       store MyDevice m_CreateDevice_Pasid
         (upd_CreateDevice (DXGKARG.set_Pasid (DXGKARG.Pasid pCreateDevice)));;
       store MyDevice m_CreateDevice_hKmdProcess
         (upd_CreateDevice
            (DXGKARG.set_hKmdProcess (DXGKARG.hKmdProcess pCreateDevice)))
     else mret tt);;
    r ← call_DxgkDdiCreateDevice DriverInitData hAdapter pCreateDevice;
    let ntStatus := ddi_status r in
    let pCreateDevice := ddi_arg r in
    if negb (NT_SUCCESS ntStatus) then
      LJB_PROXYKMD_FreePool MyDevice;;
      mret (ntStatus, pCreateDevice)
    else
      store MyDevice m_hDevice (set_hDevice (DXGKARG.hDevice pCreateDevice));;
      d ← load MyDevice;
      (if negb (DXGKARG.pInfo pCreateDevice =? DXGKARG.pInfo (CreateDevice d)) then
         store MyDevice m_DeviceInfo (set_DeviceInfo (ddi_info r))
       else mret tt);;
      oldIrql ← KeAcquireSpinLock;
      InsertTailList MyDevice;;
      KeReleaseSpinLock oldIrql;;
      mret (ntStatus, pCreateDevice).

(** The [for] loop of [LJB_DXGK_FindDevice], from [listEntry] on. *)
Fixpoint FindDevice_loop (hDevice_ : HANDLE) (entries : list Z) : M Z :=
  match entries with
  | [] => mret NULL
  | listEntry :: rest =>
      thisDevice ← load listEntry;
      emit (EvVisit listEntry);;
      if hDevice thisDevice =? hDevice_ then mret listEntry
      else FindDevice_loop hDevice_ rest
  end.

Definition LJB_DXGK_FindDevice (hDevice_ : HANDLE) : M Z :=
  oldIrql ← KeAcquireSpinLock;
  MyDevice ← (fun m =>
    FindDevice_loop hDevice_ (ClientDeviceListHead (GlobalDriverData m)) m);
  KeReleaseSpinLock oldIrql;;
  mret MyDevice.

End Shim.

(** ** Closed forms used by the statements *)

Section Resolution.

Variable FIND_ADAPTER_BY_DRIVER_ADAPTER : HANDLE -> Z.
Variable LJB_ADAPTER_at : Z -> LJB_ADAPTER.

(** [&ClientDriverData->DriverInitData] for the adapter behind a handle. *)
Definition init_data (hAdapter : HANDLE) : DRIVER_INITIALIZATION_DATA :=
  DriverInitData
    (ClientDriverData (LJB_ADAPTER_at (FIND_ADAPTER_BY_DRIVER_ADAPTER hAdapter))).

(** What the inbox driver answers to the delegated call. *)
Definition ddi (hAdapter : HANDLE) (a : DXGKARG_CREATEDEVICE) : DDI_RETURN :=
  DxgkDdiCreateDevice (init_data hAdapter) hAdapter a.

End Resolution.

(** [MyDevice->CreateDevice] once the request has been recorded. *)
Definition snapshot (version : Z) (a : DXGKARG_CREATEDEVICE) : DXGKARG_CREATEDEVICE :=
  let gate := DXGKDDI_INTERFACE_VERSION_WDDM2_0 <=? version in
  {| DXGKARG.hDevice := DXGKARG.hDevice a;
     DXGKARG.FlagsOrInfo := DXGKARG.Flags a;
     DXGKARG.Pasid := if gate then DXGKARG.Pasid a else 0;
     DXGKARG.hKmdProcess := if gate then DXGKARG.hKmdProcess a else 0 |}.

(** The test guarding the copy of [*pInfo], against the recorded request. *)
Definition captures (a : DXGKARG_CREATEDEVICE) (r : DDI_RETURN) : bool :=
  negb (DXGKARG.pInfo (ddi_arg r) =? DXGKARG.Flags a).

(** [*MyDevice] when it is linked into the device list. *)
Definition finalized (adapter version : Z) (a : DXGKARG_CREATEDEVICE)
    (r : DDI_RETURN) : LJB_DEVICE :=
  {| hRTDevice := DXGKARG.hDevice a; Adapter := adapter;
     CreateDevice := snapshot version a;
     hDevice := DXGKARG.hDevice (ddi_arg r);
     DeviceInfo := if captures a r then ddi_info r else DXGK_DEVICEINFO_zero |}.

Definition populate_events (p version : Z) : list Event :=
  [EvStore p m_ListEntry; EvStore p m_hRTDevice; EvStore p m_Adapter;
   EvStore p m_CreateDevice_hDevice; EvStore p m_CreateDevice_Flags] ++
  (if DXGKDDI_INTERFACE_VERSION_WDDM2_0 <=? version
   then [EvStore p m_CreateDevice_Pasid; EvStore p m_CreateDevice_hKmdProcess]
   else []).

Definition finalize_events (p : Z) (a : DXGKARG_CREATEDEVICE) (r : DDI_RETURN)
    : list Event :=
  [EvStore p m_hDevice] ++
  (if captures a r then [EvStore p m_DeviceInfo] else []).

Definition publish_events (p : Z) : list Event :=
  [EvKeAcquireSpinLock; EvInsertTailList p; EvKeReleaseSpinLock].

(** Does the entry at [q] carry driver handle [h]? *)
Definition has_handle (pool : gmap Z LJB_DEVICE) (h : HANDLE) (q : Z) : bool :=
  hDevice (deref pool q) =? h.

(** The entries of the device list that carry driver handle [h]. *)
Definition matches (h : HANDLE) (m : Machine) : list Z :=
  List.filter (has_handle (NonPagedPool m) h)
              (ClientDeviceListHead (GlobalDriverData m)).

(** The entries the lookup loop inspects: up to and including the first
    one that carries [h]. *)
Fixpoint visited (pool : gmap Z LJB_DEVICE) (h : HANDLE) (l : list Z) : list Z :=
  match l with
  | [] => []
  | q :: rest => q :: (if has_handle pool h q then [] else visited pool h rest)
  end.

(** Every linked block is a live block of the pool. *)
Definition linked_in_pool (m : Machine) : Prop :=
  forall q, q ∈ ClientDeviceListHead (GlobalDriverData m) ->
            is_Some (NonPagedPool m !! q).

(** The pool hands out only blocks that are not live. *)
Definition fresh_choice (PoolChoice : gmap Z LJB_DEVICE -> Z) (m : Machine) : Prop :=
  PoolChoice (NonPagedPool m) ≠ NULL ->
  NonPagedPool m !! PoolChoice (NonPagedPool m) = None.

(** ** Reading event lists *)

Definition is_store (p : Z) (member : Member) (e : Event) : bool :=
  match e with
  | EvStore q k => (q =? p) && bool_decide (k = member)
  | _ => false
  end.

(** Number of stores to member [member] of block [p]. *)
Definition stores (p : Z) (member : Member) (t : list Event) : nat :=
  length (List.filter (is_store p member) t).

Definition is_ddi_call (e : Event) : bool :=
  match e with EvDdiCreateDevice _ _ => true | _ => false end.

(** Number of calls into the inbox driver. *)
Definition ddi_calls (t : list Event) : nat :=
  length (List.filter is_ddi_call t).

(** [e1] happens, and later [e2] does. *)
Definition precedes (e1 e2 : Event) (t : list Event) : Prop :=
  exists t1 t2 t3, t = t1 ++ e1 :: t2 ++ e2 :: t3.

(** The lock discipline of a run, [held] telling whether the lock is
    held where the events start: acquisitions and releases alternate,
    the device list is linked into or walked only with the lock held,
    the pool, the inbox driver and the private block are used only with
    the lock free, and the lock is free at the end. *)
Fixpoint lock_discipline (held : bool) (t : list Event) : bool :=
  match t with
  | [] => negb held
  | e :: t' =>
      match e with
      | EvKeAcquireSpinLock => negb held && lock_discipline true t'
      | EvKeReleaseSpinLock => held && lock_discipline false t'
      | EvInsertTailList _ | EvVisit _ => held && lock_discipline held t'
      | EvGetPoolZero _ | EvFreePool _ | EvStore _ _ | EvDdiCreateDevice _ _ =>
          negb held && lock_discipline held t'
      end
  end.

Definition is_lock_event (e : Event) : bool :=
  match e with
  | EvKeAcquireSpinLock | EvKeReleaseSpinLock => true
  | _ => false
  end.

(** ** A concrete environment

    An inbox driver that answers [status], writes [handle] into the
    request and stores [info_ptr] into the request's [pInfo] when one is
    given; [info] is what the block behind the request's [pInfo] holds
    afterwards. *)
Definition inbox_driver (status : NTSTATUS) (handle : HANDLE -> HANDLE)
    (info_ptr : option Z) (info : DXGK_DEVICEINFO)
    : HANDLE -> DXGKARG_CREATEDEVICE -> DDI_RETURN :=
  fun _ a =>
    let a1 := DXGKARG.set_hDevice (handle (DXGKARG.hDevice a)) a in
    {| ddi_status := status;
       ddi_arg := match info_ptr with
                  | Some q => DXGKARG.set_pInfo q a1
                  | None => a1
                  end;
       ddi_info := info |}.

Definition adapter_of (version : Z)
    (driver : HANDLE -> DXGKARG_CREATEDEVICE -> DDI_RETURN) : LJB_ADAPTER :=
  {| ClientDriverData :=
       {| DriverInitData :=
            {| Version := version; DxgkDdiCreateDevice := driver |} |} |}.

(** Every adapter handle resolves to the context at 0xA000. *)
Definition find_adapter : HANDLE -> Z := fun _ => 0xA000.

(** A pool handing out 0x1000, 0x1100, ... and one that is exhausted. *)
Definition bump_pool (pool : gmap Z LJB_DEVICE) : Z :=
  0x1000 + 0x100 * Z.of_nat (size pool).

Definition exhausted_pool (pool : gmap Z LJB_DEVICE) : Z := NULL.

Definition boot : Machine :=
  {| GlobalDriverData :=
       {| ClientDeviceListHead := []; ClientDeviceListLock := false |};
     NonPagedPool := ∅; Irql := 0 |}.

Definition some_info : DXGK_DEVICEINFO :=
  {| DmaBufferSize := 0x10000; DmaBufferSegmentSet := 1;
     DmaBufferPrivateDataSize := 64; AllocationListSize := 16;
     PatchLocationListSize := 32; InfoFlags := 0 |}.

(** The request of the specification's scenario: runtime handle 0x100,
    flag word 1, process association (7, 0x55). *)
Definition request_0x100 : DXGKARG_CREATEDEVICE :=
  {| DXGKARG.hDevice := 0x100; DXGKARG.FlagsOrInfo := 1;
     DXGKARG.Pasid := 7; DXGKARG.hKmdProcess := 0x55 |}.

Definition request_0x101 : DXGKARG_CREATEDEVICE :=
  {| DXGKARG.hDevice := 0x101; DXGKARG.FlagsOrInfo := 1;
     DXGKARG.Pasid := 7; DXGKARG.hKmdProcess := 0x55 |}.

(** A request whose slot holds a kernel address; its flag word, the 32
    low bits, is 0. *)
Definition request_wide : DXGKARG_CREATEDEVICE :=
  {| DXGKARG.hDevice := 0x100; DXGKARG.FlagsOrInfo := 0xFFFFF80000000000;
     DXGKARG.Pasid := 7; DXGKARG.hKmdProcess := 0x55 |}.

(** Status codes used in the scenarios: a failure and a success code
    other than STATUS_SUCCESS. *)
Definition STATUS_UNSUCCESSFUL : NTSTATUS := 0xC0000001 - 0x100000000.
Definition STATUS_PENDING : NTSTATUS := 0x103.

(** Adapters at interface version WDDM 2.0 (0x5023) or WDDM 1.3 (0x4002),
    over inbox drivers that: succeed, assign handle 0x200 and leave the
    slot alone; succeed and publish an info block at 0x2000; succeed with
    STATUS_PENDING; fail after writing handle and info pointer; succeed
    and assign the runtime handle plus 0x100. *)
Definition wddm20_plain : Z -> LJB_ADAPTER :=
  fun _ => adapter_of 0x5023
             (inbox_driver 0 (fun _ => 0x200) None DXGK_DEVICEINFO_zero).

Definition wddm20_slot_kept : Z -> LJB_ADAPTER :=
  fun _ => adapter_of 0x5023 (inbox_driver 0 (fun _ => 0x200) None some_info).

Definition wddm20_info : Z -> LJB_ADAPTER :=
  fun _ => adapter_of 0x5023
             (inbox_driver 0 (fun _ => 0x200) (Some 0x2000) some_info).

Definition wddm13_info : Z -> LJB_ADAPTER :=
  fun _ => adapter_of 0x4002
             (inbox_driver 0 (fun _ => 0x200) (Some 0x2000) some_info).

Definition wddm20_pending : Z -> LJB_ADAPTER :=
  fun _ => adapter_of 0x5023
             (inbox_driver STATUS_PENDING (fun _ => 0x200) (Some 0x2000) some_info).

Definition wddm20_failing : Z -> LJB_ADAPTER :=
  fun _ => adapter_of 0x5023
             (inbox_driver STATUS_UNSUCCESSFUL (fun _ => 0x200) (Some 0x2000)
                some_info).

Definition wddm20_offset : Z -> LJB_ADAPTER :=
  fun _ => adapter_of 0x5023
             (inbox_driver 0 (fun h => h + 0x100) None DXGK_DEVICEINFO_zero).

(** The machine after the request with runtime handle 0x100 has been
    served from [boot], by the driver that always assigns 0x200 and by
    the driver that assigns the runtime handle plus 0x100. *)
Definition after_0x100_plain : Machine :=
  (LJB_DXGK_CreateDevice find_adapter wddm20_plain bump_pool 0xAA
     request_0x100 boot).1.2.

Definition after_0x100_offset : Machine :=
  (LJB_DXGK_CreateDevice find_adapter wddm20_offset bump_pool 0xAA
     request_0x100 boot).1.2.

(** ** Two statements of the specification, as worded *)

Section AsWorded.

Variable FIND_ADAPTER_BY_DRIVER_ADAPTER : HANDLE -> Z.
Variable LJB_ADAPTER_at : Z -> LJB_ADAPTER.
Variable PoolChoice : gmap Z LJB_DEVICE -> Z.

(** After a successful delegation [DeviceInfo] is copied from the
    driver's block exactly when the request's [pInfo] is no longer the
    pointer the caller passed, and is zero otherwise. *)
Definition captured_iff_pInfo_replaced (hAdapter : HANDLE)
    (a : DXGKARG_CREATEDEVICE) (m : Machine) : Prop :=
  let p := PoolChoice (NonPagedPool m) in
  let r := ddi FIND_ADAPTER_BY_DRIVER_ADAPTER LJB_ADAPTER_at hAdapter a in
  let '(_, a', m', t) :=
    LJB_DXGK_CreateDevice FIND_ADAPTER_BY_DRIVER_ADAPTER LJB_ADAPTER_at
      PoolChoice hAdapter a m in
  p ≠ NULL -> NT_SUCCESS (ddi_status r) = true ->
  (EvStore p m_DeviceInfo ∈ t <-> DXGKARG.pInfo a' ≠ DXGKARG.pInfo a) /\
  DeviceInfo (deref (NonPagedPool m') p) =
    (if bool_decide (DXGKARG.pInfo a' ≠ DXGKARG.pInfo a)
     then ddi_info r else DXGK_DEVICEINFO_zero).

(** After a creation that returns success, the lookup of the driver's
    handle returns the new record, which is the only match and keeps
    the caller's runtime handle. *)
Definition created_is_the_one_found (hAdapter : HANDLE)
    (a : DXGKARG_CREATEDEVICE) (m : Machine) : Prop :=
  let p := PoolChoice (NonPagedPool m) in
  let '(ntStatus, a', m', _) :=
    LJB_DXGK_CreateDevice FIND_ADAPTER_BY_DRIVER_ADAPTER LJB_ADAPTER_at
      PoolChoice hAdapter a m in
  NT_SUCCESS ntStatus = true ->
  (LJB_DXGK_FindDevice (DXGKARG.hDevice a') m').1.1 = p /\
  matches (DXGKARG.hDevice a') m' = [p] /\
  hRTDevice (deref (NonPagedPool m') p) = DXGKARG.hDevice a.

End AsWorded.

(** ** Registry states *)

(** The driver handle recorded in the block at [q]. *)
Definition handle_of (m : Machine) (q : Z) : HANDLE :=
  hDevice (deref (NonPagedPool m) q).

(** No two entries of the device list carry the same driver handle. *)
Definition unique_handles (m : Machine) : Prop :=
  NoDup (map (handle_of m) (ClientDeviceListHead (GlobalDriverData m))).

(** The live blocks of the pool are exactly the linked ones. *)
Definition pool_is_linked (m : Machine) : Prop :=
  dom (NonPagedPool m) =
  (list_to_set (ClientDeviceListHead (GlobalDriverData m)) : gset Z).

(** The machines that creations and lookups lead to from [boot],
    whatever adapter resolution, inbox drivers and requests are met on
    the way, as long as the pool hands out fresh blocks. *)
Inductive reachable : Machine -> Prop :=
  | reach_boot : reachable boot
  | reach_create (FIND_ADAPTER_BY_DRIVER_ADAPTER : HANDLE -> Z)
      (LJB_ADAPTER_at : Z -> LJB_ADAPTER)
      (PoolChoice : gmap Z LJB_DEVICE -> Z)
      (hAdapter : HANDLE) (a : DXGKARG_CREATEDEVICE) (m : Machine) :
      reachable m ->
      fresh_choice PoolChoice m ->
      reachable
        (LJB_DXGK_CreateDevice FIND_ADAPTER_BY_DRIVER_ADAPTER LJB_ADAPTER_at
           PoolChoice hAdapter a m).1.2
  | reach_find (h : HANDLE) (m : Machine) :
      reachable m ->
      reachable (LJB_DXGK_FindDevice h m).1.2.

(** * Verification *)

(** ** The request slot *)

Lemma Flags_stored_in_zero (a : DXGKARG_CREATEDEVICE) :
  Z.lor (Z.ldiff 0 0xFFFFFFFF) (Z.land (DXGKARG.Flags a) 0xFFFFFFFF)
  = DXGKARG.Flags a.
Proof.
  unfold DXGKARG.Flags.
  rewrite Z.ldiff_0_l, Z.lor_0_l, <- Z.land_assoc. reflexivity.
Qed.

Lemma Flags_of_narrow_slot (a : DXGKARG_CREATEDEVICE) :
  0 <= DXGKARG.pInfo a < 0x100000000 ->
  DXGKARG.Flags a = DXGKARG.pInfo a.
Proof.
  unfold DXGKARG.Flags, DXGKARG.pInfo. intros Hrange.
  change 0xFFFFFFFF with (Z.ones 32).
  rewrite Z.land_ones by lia. apply Z.mod_small. exact Hrange.
Qed.

(** ** Pool blocks *)

Lemma deref_insert (pool : gmap Z LJB_DEVICE) p d :
  deref (<[p := d]> pool) p = d.
Proof. unfold deref. by rewrite lookup_insert_eq. Qed.

Lemma deref_insert_ne (pool : gmap Z LJB_DEVICE) p q d :
  p ≠ q -> deref (<[p := d]> pool) q = deref pool q.
Proof. intros Hne. unfold deref. by rewrite lookup_insert_ne. Qed.

Lemma has_handle_insert_ne (pool : gmap Z LJB_DEVICE) p q d h :
  p ≠ q -> has_handle (<[p := d]> pool) h q = has_handle pool h q.
Proof. intros Hne. unfold has_handle. by rewrite deref_insert_ne. Qed.

(** ** Event lists *)

Lemma stores_app p member t1 t2 :
  stores p member (t1 ++ t2) = (stores p member t1 + stores p member t2)%nat.
Proof. unfold stores. by rewrite List.filter_app, length_app. Qed.

Lemma stores_populate_events p version member :
  member ≠ m_ListEntry -> member ≠ m_hRTDevice -> member ≠ m_Adapter ->
  member ≠ m_CreateDevice_hDevice -> member ≠ m_CreateDevice_Flags ->
  stores p member (populate_events p version) =
    if DXGKDDI_INTERFACE_VERSION_WDDM2_0 <=? version
    then ((if bool_decide (member = m_CreateDevice_Pasid) then 1 else 0) +
          (if bool_decide (member = m_CreateDevice_hKmdProcess) then 1 else 0))%nat
    else 0%nat.
Proof.
  intros H1 H2 H3 H4 H5. unfold populate_events.
  destruct (DXGKDDI_INTERFACE_VERSION_WDDM2_0 <=? version);
    unfold stores, is_store; simpl; rewrite !Z.eqb_refl; simpl;
    destruct member; done.
Qed.

Lemma lock_discipline_populate p version t :
  lock_discipline false (populate_events p version ++ t) = lock_discipline false t.
Proof.
  unfold populate_events.
  destruct (DXGKDDI_INTERFACE_VERSION_WDDM2_0 <=? version); reflexivity.
Qed.

Lemma lock_events_populate p version :
  List.filter is_lock_event (populate_events p version) = [].
Proof.
  unfold populate_events.
  destruct (DXGKDDI_INTERFACE_VERSION_WDDM2_0 <=? version); reflexivity.
Qed.

Lemma lock_events_finalize p a r :
  List.filter is_lock_event (finalize_events p a r) = [].
Proof. unfold finalize_events. destruct (captures a r); reflexivity. Qed.

(** ** The lookup loop *)

Lemma visited_find pool h l :
  (List.find (has_handle pool h) l = None /\
   visited pool h l = l /\
   forall q, q ∈ l -> has_handle pool h q = false)
  \/
  (exists l1 q l2,
     l = l1 ++ q :: l2 /\
     List.find (has_handle pool h) l = Some q /\
     has_handle pool h q = true /\
     visited pool h l = l1 ++ [q] /\
     forall q', q' ∈ l1 -> has_handle pool h q' = false).
Proof.
  induction l as [|x l IH]; simpl.
  - left. repeat split. intros q Hq. by apply elem_of_nil in Hq.
  - destruct (has_handle pool h x) eqn:Hx.
    + right. exists [], x, l. repeat split; try done.
      intros q' Hq'. by apply elem_of_nil in Hq'.
    + destruct IH as [(Hnone & Hvis & Hall) | (l1 & q & l2 & Hl & Hfind & Hq & Hvis & Hall)].
      * left. rewrite Hvis. repeat split; try done.
        intros q Hq. apply elem_of_cons in Hq as [-> | Hq]; auto.
      * right. exists (x :: l1), q, l2. rewrite Hvis, Hl. repeat split; try done.
        -- by rewrite <- Hl.
        -- intros q' Hq'. apply elem_of_cons in Hq' as [-> | Hq']; auto.
Qed.

(** ** Runs of the two functions in closed form *)

Ltac unfold_shim :=
  unfold LJB_DXGK_CreateDevice, LJB_PROXYKMD_GetPoolZero, LJB_PROXYKMD_FreePool,
    call_DxgkDdiCreateDevice, mbind, M_bind.

Ltac unfold_steps :=
  unfold store, load, InitializeListHead, InsertTailList, KeAcquireSpinLock,
    KeReleaseSpinLock, mret, M_ret, with_pool, with_list, with_lock;
  cbn [NonPagedPool GlobalDriverData Irql ClientDeviceListHead
       ClientDeviceListLock negb app].

Ltac unfold_members :=
  unfold set_hDevice, upd_CreateDevice, set_Adapter, set_hRTDevice,
    set_DeviceInfo, DXGKARG.pInfo, DXGKARG.set_hDevice, DXGKARG.set_Flags,
    DXGKARG.set_Pasid, DXGKARG.set_hKmdProcess, LJB_DEVICE_zero, DXGKARG.zero;
  cbn [CreateDevice hRTDevice Adapter hDevice DeviceInfo DXGKARG.FlagsOrInfo
       DXGKARG.hDevice DXGKARG.Pasid DXGKARG.hKmdProcess].

Section Runs.

Variable FIND_ADAPTER_BY_DRIVER_ADAPTER : HANDLE -> Z.
Variable LJB_ADAPTER_at : Z -> LJB_ADAPTER.
Variable PoolChoice : gmap Z LJB_DEVICE -> Z.

Local Abbreviation CreateDevice_run :=
  (LJB_DXGK_CreateDevice FIND_ADAPTER_BY_DRIVER_ADAPTER LJB_ADAPTER_at PoolChoice).
Local Abbreviation init_data_of :=
  (init_data FIND_ADAPTER_BY_DRIVER_ADAPTER LJB_ADAPTER_at).
Local Abbreviation ddi_of :=
  (ddi FIND_ADAPTER_BY_DRIVER_ADAPTER LJB_ADAPTER_at).

Lemma CreateDevice_run_no_memory hAdapter a m :
  PoolChoice (NonPagedPool m) = NULL ->
  CreateDevice_run hAdapter a m =
    (STATUS_NO_MEMORY, a, m, [EvGetPoolZero NULL]).
Proof.
  intros Hp. unfold_shim. rewrite Hp. reflexivity.
Qed.

Lemma CreateDevice_run_failure hAdapter a m :
  let p := PoolChoice (NonPagedPool m) in
  let version := Version (init_data_of hAdapter) in
  let r := ddi_of hAdapter a in
  p ≠ NULL ->
  NT_SUCCESS (ddi_status r) = false ->
  CreateDevice_run hAdapter a m =
    (ddi_status r, ddi_arg r,
     {| GlobalDriverData := GlobalDriverData m;
        NonPagedPool := delete p (NonPagedPool m);
        Irql := Irql m |},
     [EvGetPoolZero p] ++ populate_events p version ++
     [EvDdiCreateDevice hAdapter a; EvFreePool p]).
Proof.
  intros p version r Hp Hko.
  apply Z.eqb_neq in Hp.
  unfold version, r, ddi, init_data, p in *.
  unfold_shim. rewrite Hp, Hp, Hko.
  unfold populate_events.
  destruct (DXGKDDI_INTERFACE_VERSION_WDDM2_0 <=? _) eqn:Hv;
    unfold_steps; rewrite !alter_insert_eq, delete_insert_eq; reflexivity.
Qed.

Lemma CreateDevice_run_success hAdapter a m :
  let p := PoolChoice (NonPagedPool m) in
  let adapter := FIND_ADAPTER_BY_DRIVER_ADAPTER hAdapter in
  let version := Version (init_data_of hAdapter) in
  let r := ddi_of hAdapter a in
  p ≠ NULL ->
  NT_SUCCESS (ddi_status r) = true ->
  CreateDevice_run hAdapter a m =
    (ddi_status r, ddi_arg r,
     {| GlobalDriverData :=
          {| ClientDeviceListHead :=
               ClientDeviceListHead (GlobalDriverData m) ++ [p];
             ClientDeviceListLock := false |};
        NonPagedPool := <[p := finalized adapter version a r]> (NonPagedPool m);
        Irql := Irql m |},
     [EvGetPoolZero p] ++ populate_events p version ++
     [EvDdiCreateDevice hAdapter a] ++ finalize_events p a r ++
     publish_events p).
Proof.
  intros p adapter version r Hp Hok.
  apply Z.eqb_neq in Hp.
  unfold version, r, ddi, init_data, adapter, p in *.
  unfold_shim. rewrite Hp, Hp, Hok.
  unfold populate_events, finalize_events, publish_events, finalized,
    snapshot, captures.
  destruct (DXGKDDI_INTERFACE_VERSION_WDDM2_0 <=? _) eqn:Hv;
    unfold_steps; rewrite !alter_insert_eq, !deref_insert;
    unfold_members; rewrite !Flags_stored_in_zero;
    destruct (_ =? DXGKARG.Flags a) eqn:Hc;
    cbn [NonPagedPool GlobalDriverData Irql ClientDeviceListHead
         ClientDeviceListLock negb app];
    rewrite ?alter_insert_eq;
    cbn [CreateDevice hRTDevice Adapter hDevice DeviceInfo
         DXGKARG.FlagsOrInfo DXGKARG.hDevice DXGKARG.Pasid
         DXGKARG.hKmdProcess];
    reflexivity.
Qed.

(** Success of the returned status is success of the delegation on a
    block that was really allocated. *)
Lemma CreateDevice_success_inv hAdapter a m :
  NT_SUCCESS (CreateDevice_run hAdapter a m).1.1.1 = true ->
  PoolChoice (NonPagedPool m) ≠ NULL /\
  NT_SUCCESS (ddi_status (ddi_of hAdapter a)) = true.
Proof.
  intros Hret.
  destruct (decide (PoolChoice (NonPagedPool m) = NULL)) as [Hp | Hp].
  - rewrite CreateDevice_run_no_memory in Hret by done. discriminate Hret.
  - split; [done|].
    destruct (NT_SUCCESS (ddi_status (ddi_of hAdapter a))) eqn:Hs; [done|].
    rewrite CreateDevice_run_failure in Hret by done.
    simpl in Hret. congruence.
Qed.

Lemma FindDevice_loop_run h l m :
  FindDevice_loop h l m =
    (default NULL (List.find (has_handle (NonPagedPool m) h) l), m,
     map EvVisit (visited (NonPagedPool m) h l)).
Proof.
  induction l as [|q l IH]; [reflexivity|].
  cbn [FindDevice_loop List.find visited].
  unfold mbind, M_bind, load, emit. fold (has_handle (NonPagedPool m) h q).
  destruct (has_handle (NonPagedPool m) h q); [reflexivity|].
  rewrite IH. reflexivity.
Qed.

Lemma FindDevice_run h m :
  let l := ClientDeviceListHead (GlobalDriverData m) in
  LJB_DXGK_FindDevice h m =
    (default NULL (List.find (has_handle (NonPagedPool m) h) l),
     {| GlobalDriverData :=
          {| ClientDeviceListHead := l; ClientDeviceListLock := false |};
        NonPagedPool := NonPagedPool m;
        Irql := Irql m |},
     [EvKeAcquireSpinLock] ++ map EvVisit (visited (NonPagedPool m) h l) ++
     [EvKeReleaseSpinLock]).
Proof.
  intros l. unfold LJB_DXGK_FindDevice, mbind, M_bind.
  unfold KeAcquireSpinLock. rewrite FindDevice_loop_run.
  unfold_steps. reflexivity.
Qed.

End Runs.

(** ** Linked blocks stay live

    With a pool that hands out fresh blocks, a block just allocated is
    not in the device list, and the two functions keep every linked
    block live. *)

Section Linked.

Variable FIND_ADAPTER_BY_DRIVER_ADAPTER : HANDLE -> Z.
Variable LJB_ADAPTER_at : Z -> LJB_ADAPTER.
Variable PoolChoice : gmap Z LJB_DEVICE -> Z.

Lemma fresh_block_not_linked m :
  linked_in_pool m -> fresh_choice PoolChoice m ->
  PoolChoice (NonPagedPool m) ≠ NULL ->
  PoolChoice (NonPagedPool m) ∉ ClientDeviceListHead (GlobalDriverData m).
Proof.
  intros Hlinked Hfresh Hp Hin.
  destruct (Hlinked _ Hin) as [d Hd].
  rewrite (Hfresh Hp) in Hd. discriminate Hd.
Qed.

Lemma CreateDevice_keeps_linked_in_pool hAdapter a m :
  linked_in_pool m -> fresh_choice PoolChoice m ->
  linked_in_pool
    (LJB_DXGK_CreateDevice FIND_ADAPTER_BY_DRIVER_ADAPTER LJB_ADAPTER_at
       PoolChoice hAdapter a m).1.2.
Proof.
  intros Hlinked Hfresh.
  destruct (decide (PoolChoice (NonPagedPool m) = NULL)) as [Hnull | Hp].
  { by rewrite CreateDevice_run_no_memory. }
  pose proof (fresh_block_not_linked m Hlinked Hfresh Hp) as Hnotin.
  destruct (NT_SUCCESS (ddi_status
              (ddi FIND_ADAPTER_BY_DRIVER_ADAPTER LJB_ADAPTER_at hAdapter a)))
    eqn:Hs.
  - rewrite CreateDevice_run_success by assumption.
    intros q Hq. cbn in Hq |- *.
    apply elem_of_app in Hq as [Hq | Hq].
    + destruct (decide (PoolChoice (NonPagedPool m) = q)) as [<- | Hne];
        [done|]. rewrite lookup_insert_ne by done. by apply Hlinked.
    + apply list_elem_of_singleton in Hq as ->. by rewrite lookup_insert_eq.
  - rewrite CreateDevice_run_failure by assumption.
    intros q Hq. cbn in Hq |- *.
    rewrite lookup_delete_ne by (intros <-; done). by apply Hlinked.
Qed.

Lemma FindDevice_keeps_linked_in_pool h m :
  linked_in_pool m -> linked_in_pool (LJB_DXGK_FindDevice h m).1.2.
Proof. intros Hlinked. rewrite FindDevice_run. exact Hlinked. Qed.

End Linked.

(** ** Creation: the three ways out *)

Section Creation.

Variable FIND_ADAPTER_BY_DRIVER_ADAPTER : HANDLE -> Z.
Variable LJB_ADAPTER_at : Z -> LJB_ADAPTER.
Variable PoolChoice : gmap Z LJB_DEVICE -> Z.

Local Abbreviation CreateDevice_run :=
  (LJB_DXGK_CreateDevice FIND_ADAPTER_BY_DRIVER_ADAPTER LJB_ADAPTER_at PoolChoice).
Local Abbreviation init_data_of :=
  (init_data FIND_ADAPTER_BY_DRIVER_ADAPTER LJB_ADAPTER_at).
Local Abbreviation ddi_of :=
  (ddi FIND_ADAPTER_BY_DRIVER_ADAPTER LJB_ADAPTER_at).

(** C3: when the pool cannot supply the shadow record, the creation
    returns STATUS_NO_MEMORY (a failure status), the inbox driver is not
    called (the only event is the failed allocation), and the machine
    and the caller's request are exactly as before. *)
Theorem C3_no_memory_short_circuits hAdapter a m :
  PoolChoice (NonPagedPool m) = NULL ->
  let '(ntStatus, a', m', t) := CreateDevice_run hAdapter a m in
  ntStatus = STATUS_NO_MEMORY /\
  NT_SUCCESS ntStatus = false /\
  ddi_calls t = 0%nat /\
  t = [EvGetPoolZero NULL] /\
  m' = m /\
  a' = a.
Proof.
  intros Hp. rewrite CreateDevice_run_no_memory by exact Hp.
  repeat split.
Qed.

(** C2: when the inbox driver fails the creation, the shadow record is
    freed (the free is the last thing done, the block is no longer in
    the pool, and the pool is the old one without that block), the
    device list and the rest of the global data are untouched (nothing
    is linked in), and the status returned is the driver's. *)
Theorem C2_downstream_failure_unwinds hAdapter a m :
  let p := PoolChoice (NonPagedPool m) in
  let r := ddi_of hAdapter a in
  p ≠ NULL ->
  NT_SUCCESS (ddi_status r) = false ->
  let '(ntStatus, _, m', t) := CreateDevice_run hAdapter a m in
  ntStatus = ddi_status r /\
  last t = Some (EvFreePool p) /\
  NonPagedPool m' !! p = None /\
  NonPagedPool m' = delete p (NonPagedPool m) /\
  GlobalDriverData m' = GlobalDriverData m /\
  (forall q, EvInsertTailList q ∉ t).
Proof.
  intros p r Hp Hko.
  rewrite CreateDevice_run_failure by assumption. fold p r.
  cbn [NonPagedPool GlobalDriverData].
  split; [reflexivity|]. split.
  { change [EvDdiCreateDevice hAdapter a; EvFreePool p]
      with ([EvDdiCreateDevice hAdapter a] ++ [EvFreePool p]).
    rewrite !app_assoc. apply last_snoc. }
  split; [apply lookup_delete_eq|]. split; [reflexivity|].
  split; [reflexivity|].
  intros q Hq. apply list_elem_of_In in Hq. unfold populate_events in Hq.
  destruct (DXGKDDI_INTERFACE_VERSION_WDDM2_0 <=? _);
    simpl in Hq; intuition discriminate.
Qed.

(** C9: once the shadow record is allocated, the inbox driver is called
    exactly once, with the caller's request, and whatever status it
    returns, failure or any success code, is the status returned. *)
Theorem C9_status_passed_through hAdapter a m :
  let r := ddi_of hAdapter a in
  PoolChoice (NonPagedPool m) ≠ NULL ->
  let '(ntStatus, _, _, t) := CreateDevice_run hAdapter a m in
  EvDdiCreateDevice hAdapter a ∈ t /\
  ddi_calls t = 1%nat /\
  ntStatus = ddi_status r.
Proof.
  intros r Hp.
  destruct (NT_SUCCESS (ddi_status r)) eqn:Hs.
  - rewrite CreateDevice_run_success by assumption. fold r.
    split; [set_solver|]. split; [|reflexivity].
    unfold populate_events, finalize_events.
    destruct (DXGKDDI_INTERFACE_VERSION_WDDM2_0 <=? _), (captures a r);
      reflexivity.
  - rewrite CreateDevice_run_failure by assumption. fold r.
    split; [set_solver|]. split; [|reflexivity].
    unfold populate_events.
    destruct (DXGKDDI_INTERFACE_VERSION_WDDM2_0 <=? _); reflexivity.
Qed.

(** C10: when the inbox driver fails the creation, the request the
    caller finds afterwards is the request as the driver left it:
    nothing the driver wrote into it is undone.  Of the machine only
    the pool changes, by the release of the shadow record. *)
Theorem C10_request_left_as_driver_wrote_it hAdapter a m :
  let p := PoolChoice (NonPagedPool m) in
  let r := ddi_of hAdapter a in
  p ≠ NULL ->
  NT_SUCCESS (ddi_status r) = false ->
  let '(ntStatus, a', m', _) := CreateDevice_run hAdapter a m in
  a' = ddi_arg r /\
  ntStatus = ddi_status r /\
  m' = with_pool (delete p (NonPagedPool m)) m.
Proof.
  intros p r Hp Hko.
  rewrite CreateDevice_run_failure by assumption.
  repeat split.
Qed.

(** C4: the stores to CreateDevice.Pasid and CreateDevice.hKmdProcess
    of the shadow record happen once each when the adapter's interface
    version is at least DXGKDDI_INTERFACE_VERSION_WDDM2_0 and not at all
    below it; accordingly the record that a successful creation leaves
    in the pool holds the request's values from the threshold on, and
    zero below it whatever the request holds. *)
Theorem C4_process_association_gated hAdapter a m :
  let p := PoolChoice (NonPagedPool m) in
  let version := Version (init_data_of hAdapter) in
  let r := ddi_of hAdapter a in
  p ≠ NULL ->
  let '(_, _, m', t) := CreateDevice_run hAdapter a m in
  let d := CreateDevice (deref (NonPagedPool m') p) in
  (stores p m_CreateDevice_Pasid t = 1%nat /\
   stores p m_CreateDevice_hKmdProcess t = 1%nat <->
   DXGKDDI_INTERFACE_VERSION_WDDM2_0 <= version) /\
  (stores p m_CreateDevice_Pasid t = 0%nat /\
   stores p m_CreateDevice_hKmdProcess t = 0%nat <->
   version < DXGKDDI_INTERFACE_VERSION_WDDM2_0) /\
  (NT_SUCCESS (ddi_status r) = true ->
   (DXGKDDI_INTERFACE_VERSION_WDDM2_0 <= version ->
    DXGKARG.Pasid d = DXGKARG.Pasid a /\
    DXGKARG.hKmdProcess d = DXGKARG.hKmdProcess a) /\
   (version < DXGKDDI_INTERFACE_VERSION_WDDM2_0 ->
    DXGKARG.Pasid d = 0 /\ DXGKARG.hKmdProcess d = 0)).
Proof.
  intros p version r Hp.
  assert (Hcount : forall t1 t2 member,
    (member = m_CreateDevice_Pasid \/ member = m_CreateDevice_hKmdProcess) ->
    stores p member t1 = 0%nat -> stores p member t2 = 0%nat ->
    stores p member (t1 ++ populate_events p version ++ t2) =
      if DXGKDDI_INTERFACE_VERSION_WDDM2_0 <=? version then 1%nat else 0%nat).
  { intros t1 t2 member Hm H1 H2. rewrite !stores_app, H1, H2.
    rewrite stores_populate_events by (destruct Hm; congruence).
    destruct (DXGKDDI_INTERFACE_VERSION_WDDM2_0 <=? version);
      destruct Hm; subst; reflexivity. }
  destruct (NT_SUCCESS (ddi_status r)) eqn:Hs.
  - rewrite CreateDevice_run_success by assumption. fold p version r.
    cbn [NonPagedPool]. rewrite deref_insert.
    rewrite !Hcount; auto;
      try (unfold finalize_events, publish_events, stores, is_store;
           destruct (captures a r); simpl; rewrite ?Z.eqb_refl; reflexivity).
    unfold finalized, snapshot; cbn [CreateDevice DXGKARG.Pasid DXGKARG.hKmdProcess].
    destruct (Z.leb_spec DXGKDDI_INTERFACE_VERSION_WDDM2_0 version);
      repeat split; intros; try done; try lia; intuition (try lia; done).
  - rewrite CreateDevice_run_failure by assumption. fold p version r.
    rewrite !Hcount; auto.
    destruct (Z.leb_spec DXGKDDI_INTERFACE_VERSION_WDDM2_0 version);
      repeat split; intros; try done; try lia; intuition (try lia; done).
Qed.

End Creation.

(** ** Creation: what the record tracks, and the registry *)

Section Tracking.

Variable FIND_ADAPTER_BY_DRIVER_ADAPTER : HANDLE -> Z.
Variable LJB_ADAPTER_at : Z -> LJB_ADAPTER.
Variable PoolChoice : gmap Z LJB_DEVICE -> Z.

Local Abbreviation CreateDevice_run :=
  (LJB_DXGK_CreateDevice FIND_ADAPTER_BY_DRIVER_ADAPTER LJB_ADAPTER_at PoolChoice).
Local Abbreviation init_data_of :=
  (init_data FIND_ADAPTER_BY_DRIVER_ADAPTER LJB_ADAPTER_at).
Local Abbreviation ddi_of :=
  (ddi FIND_ADAPTER_BY_DRIVER_ADAPTER LJB_ADAPTER_at).

Lemma captures_spec a r :
  captures a r = true <-> DXGKARG.pInfo (ddi_arg r) ≠ DXGKARG.Flags a.
Proof.
  unfold captures. rewrite negb_true_iff. apply Z.eqb_neq.
Qed.

(** The capture test as the code has it: after a successful delegation
    the pointer the driver left in the request is compared with the
    [pInfo] member
    of the record's own copy of the request.  That copy received only
    the 32-bit [Flags] word of the slot that [Flags] and [pInfo] share,
    so it reads as the caller's flag word.  [DeviceInfo] is stored
    (once, with the driver's block) exactly when the driver's pointer
    differs from that word, and stays zero otherwise.  When the slot
    the caller passed holds nothing above its 32 low bits, that word is
    the pointer originally passed and the capture happens exactly when
    the driver replaced it. *)
Theorem C1_DeviceInfo_captured_iff_pInfo_differs_from_recorded hAdapter a m :
  let p := PoolChoice (NonPagedPool m) in
  let r := ddi_of hAdapter a in
  p ≠ NULL ->
  NT_SUCCESS (ddi_status r) = true ->
  let '(_, a', m', t) := CreateDevice_run hAdapter a m in
  let d := deref (NonPagedPool m') p in
  DXGKARG.pInfo (CreateDevice d) = DXGKARG.Flags a /\
  (EvStore p m_DeviceInfo ∈ t <-> DXGKARG.pInfo a' ≠ DXGKARG.Flags a) /\
  DeviceInfo d =
    (if bool_decide (DXGKARG.pInfo a' ≠ DXGKARG.Flags a)
     then ddi_info r else DXGK_DEVICEINFO_zero) /\
  (0 <= DXGKARG.pInfo a < 0x100000000 ->
   (EvStore p m_DeviceInfo ∈ t <-> DXGKARG.pInfo a' ≠ DXGKARG.pInfo a) /\
   DeviceInfo d =
     (if bool_decide (DXGKARG.pInfo a' ≠ DXGKARG.pInfo a)
      then ddi_info r else DXGK_DEVICEINFO_zero)).
Proof.
  intros p r Hp Hok.
  rewrite CreateDevice_run_success by assumption. fold p r.
  cbn [NonPagedPool]. rewrite deref_insert.
  assert (Hev : EvStore p m_DeviceInfo ∈
            [EvGetPoolZero p] ++
            populate_events p (Version (init_data_of hAdapter)) ++
            [EvDdiCreateDevice hAdapter a] ++ finalize_events p a r ++
            publish_events p
          <-> DXGKARG.pInfo (ddi_arg r) ≠ DXGKARG.Flags a).
  { rewrite <- captures_spec, list_elem_of_In.
    unfold populate_events, finalize_events.
    destruct (DXGKDDI_INTERFACE_VERSION_WDDM2_0 <=? _), (captures a r);
      simpl; intuition discriminate. }
  assert (Hval : DeviceInfo
            (finalized (FIND_ADAPTER_BY_DRIVER_ADAPTER hAdapter)
               (Version (init_data_of hAdapter)) a r) =
          if bool_decide (DXGKARG.pInfo (ddi_arg r) ≠ DXGKARG.Flags a)
          then ddi_info r else DXGK_DEVICEINFO_zero).
  { cbn [finalized DeviceInfo].
    destruct (captures a r) eqn:Hc.
    - apply captures_spec in Hc. by rewrite bool_decide_eq_true_2.
    - rewrite bool_decide_eq_false_2; [done|].
      intros Hne. apply captures_spec in Hne. congruence. }
  split; [reflexivity|]. split; [exact Hev|]. split; [exact Hval|].
  intros Hnarrow. rewrite <- (Flags_of_narrow_slot a Hnarrow).
  split; [exact Hev | exact Hval].
Qed.

(** C5: for a block that is not already linked, the shadow record is in
    the device list after the call exactly when the inbox driver's
    creation succeeded.  On success [hDevice] is stored once, after the
    call to the inbox driver and before the record is linked in, and
    the linked record carries the driver's handle; on failure [hDevice]
    is never stored and nothing is linked in. *)
Theorem C5_registered_iff_created hAdapter a m :
  let p := PoolChoice (NonPagedPool m) in
  let r := ddi_of hAdapter a in
  p ≠ NULL ->
  p ∉ ClientDeviceListHead (GlobalDriverData m) ->
  let '(_, a', m', t) := CreateDevice_run hAdapter a m in
  (p ∈ ClientDeviceListHead (GlobalDriverData m') <->
   NT_SUCCESS (ddi_status r) = true) /\
  (NT_SUCCESS (ddi_status r) = true ->
   stores p m_hDevice t = 1%nat /\
   precedes (EvDdiCreateDevice hAdapter a) (EvStore p m_hDevice) t /\
   precedes (EvStore p m_hDevice) (EvInsertTailList p) t /\
   hDevice (deref (NonPagedPool m') p) = DXGKARG.hDevice a') /\
  (NT_SUCCESS (ddi_status r) = false ->
   stores p m_hDevice t = 0%nat /\
   (forall q, EvInsertTailList q ∉ t) /\
   ClientDeviceListHead (GlobalDriverData m') =
     ClientDeviceListHead (GlobalDriverData m)).
Proof.
  intros p r Hp Hfresh.
  destruct (NT_SUCCESS (ddi_status r)) eqn:Hs.
  - rewrite CreateDevice_run_success by assumption. fold p r.
    cbn [GlobalDriverData ClientDeviceListHead NonPagedPool].
    split; [split; [done | intros _; set_solver]|].
    split; [|intros Hko; discriminate Hko].
    intros _. rewrite deref_insert. cbn [finalized hDevice].
    split; [|split; [|split; [|reflexivity]]].
    + rewrite !stores_app, stores_populate_events by congruence.
      unfold finalize_events, publish_events, stores, is_store.
      destruct (DXGKDDI_INTERFACE_VERSION_WDDM2_0 <=? _), (captures a r);
        simpl; rewrite ?Z.eqb_refl; reflexivity.
    + exists ([EvGetPoolZero p] ++
              populate_events p (Version (init_data_of hAdapter))),
             [],
             ((if captures a r then [EvStore p m_DeviceInfo] else []) ++
              publish_events p).
      unfold finalize_events. by rewrite <- !app_assoc.
    + exists ([EvGetPoolZero p] ++
              populate_events p (Version (init_data_of hAdapter)) ++
              [EvDdiCreateDevice hAdapter a]),
             ((if captures a r then [EvStore p m_DeviceInfo] else []) ++
              [EvKeAcquireSpinLock]),
             [EvKeReleaseSpinLock].
      unfold finalize_events, publish_events. by rewrite <- !app_assoc.
  - assert (Hrun := CreateDevice_run_failure FIND_ADAPTER_BY_DRIVER_ADAPTER
                      LJB_ADAPTER_at PoolChoice hAdapter a m Hp Hs).
    fold p r in Hrun. rewrite Hrun.
    cbn [GlobalDriverData ClientDeviceListHead NonPagedPool].
    split; [split; [done | intros Hok; discriminate Hok]|].
    split; [intros Hok; discriminate Hok|].
    intros _. split; [|split; [|reflexivity]].
    + rewrite !stores_app, stores_populate_events by congruence.
      destruct (DXGKDDI_INTERFACE_VERSION_WDDM2_0 <=? _); reflexivity.
    + intros q Hq. apply list_elem_of_In in Hq. unfold populate_events in Hq.
      destruct (DXGKDDI_INTERFACE_VERSION_WDDM2_0 <=? _);
        simpl in Hq; intuition discriminate.
Qed.

End Tracking.

(** ** Lookup *)

Section Lookup.

Variable FIND_ADAPTER_BY_DRIVER_ADAPTER : HANDLE -> Z.
Variable LJB_ADAPTER_at : Z -> LJB_ADAPTER.
Variable PoolChoice : gmap Z LJB_DEVICE -> Z.

Local Abbreviation CreateDevice_run :=
  (LJB_DXGK_CreateDevice FIND_ADAPTER_BY_DRIVER_ADAPTER LJB_ADAPTER_at PoolChoice).
Local Abbreviation ddi_of :=
  (ddi FIND_ADAPTER_BY_DRIVER_ADAPTER LJB_ADAPTER_at).

Lemma has_handle_spec pool h q :
  has_handle pool h q = false <-> hDevice (deref pool q) ≠ h.
Proof. unfold has_handle. apply Z.eqb_neq. Qed.

Lemma filter_none {A} (f : A -> bool) (l : list A) :
  (forall x, x ∈ l -> f x = false) -> List.filter f l = [].
Proof.
  induction l as [|x l IH]; [done|]. intros Hall. simpl.
  rewrite (Hall x) by apply list_elem_of_here.
  apply IH. intros y Hy. apply Hall. by apply list_elem_of_further.
Qed.

Lemma find_app_none {A} (f : A -> bool) (l1 l2 : list A) :
  (forall x, x ∈ l1 -> f x = false) ->
  List.find f (l1 ++ l2) = List.find f l2.
Proof.
  induction l1 as [|x l1 IH]; [done|]. intros Hall. simpl.
  rewrite (Hall x) by apply list_elem_of_here.
  apply IH. intros y Hy. apply Hall. by apply list_elem_of_further.
Qed.

(** C7: the lookup walks the device list from its first entry,
    comparing the [hDevice] of each entry with the argument, and stops
    at the first entry that carries it, which it returns; when no entry
    carries it, it has walked the whole list and returns NULL.  Either
    way the device list and the pool are as before, and the lock is
    free and the IRQL restored. *)
Theorem C7_FindDevice_returns_first_match_or_NULL h m :
  let l := ClientDeviceListHead (GlobalDriverData m) in
  let pool := NonPagedPool m in
  let '(MyDevice, m', t) := LJB_DXGK_FindDevice h m in
  ((MyDevice = NULL /\
    (forall q, q ∈ l -> hDevice (deref pool q) ≠ h) /\
    t = [EvKeAcquireSpinLock] ++ map EvVisit l ++ [EvKeReleaseSpinLock])
   \/
   (exists l1 l2,
      l = l1 ++ MyDevice :: l2 /\
      hDevice (deref pool MyDevice) = h /\
      (forall q, q ∈ l1 -> hDevice (deref pool q) ≠ h) /\
      t = [EvKeAcquireSpinLock] ++ map EvVisit (l1 ++ [MyDevice]) ++
          [EvKeReleaseSpinLock])) /\
  ((forall q, q ∈ l -> hDevice (deref pool q) ≠ h) -> MyDevice = NULL) /\
  ClientDeviceListHead (GlobalDriverData m') = l /\
  NonPagedPool m' = pool /\
  ClientDeviceListLock (GlobalDriverData m') = false /\
  Irql m' = Irql m.
Proof.
  intros l pool. rewrite FindDevice_run. fold l pool.
  cbn [GlobalDriverData ClientDeviceListHead ClientDeviceListLock
       NonPagedPool Irql].
  destruct (visited_find pool h l)
    as [(Hnone & Hvis & Hall) | (l1 & q & l2 & Hl & Hfind & Hq & Hvis & Hall)].
  - rewrite Hnone, Hvis. cbn [default]. split; [left|]; repeat split.
    intros q Hq. apply has_handle_spec. by apply Hall.
  - rewrite Hfind, Hvis. cbn [default]. split; [right|].
    + exists l1, l2. repeat split; try done.
      * by apply Z.eqb_eq in Hq.
      * intros q' Hq'. apply has_handle_spec. by apply Hall.
    + repeat split. intros Hno. exfalso.
      apply (Hno q); [|by apply Z.eqb_eq in Hq].
      rewrite Hl. set_solver.
Qed.

(** C6, as the code has it: take a creation that returns success, for
    a block that is not already linked and a driver handle that no
    linked record carries yet.  Then looking the driver's handle up
    right afterwards returns the new record, that record is the only
    entry carrying the handle, its [hDevice] is the driver's handle and
    its [hRTDevice] is the handle the caller put in the request, which
    the driver has since overwritten.  The lookup changes neither the
    device list nor the pool. *)
Theorem C6_created_record_found_when_handle_is_new hAdapter a m :
  let p := PoolChoice (NonPagedPool m) in
  let r := ddi_of hAdapter a in
  NT_SUCCESS (CreateDevice_run hAdapter a m).1.1.1 = true ->
  p ∉ ClientDeviceListHead (GlobalDriverData m) ->
  (forall q, q ∈ ClientDeviceListHead (GlobalDriverData m) ->
             hDevice (deref (NonPagedPool m) q) ≠ DXGKARG.hDevice (ddi_arg r)) ->
  let '(_, a', m', _) := CreateDevice_run hAdapter a m in
  let '(MyDevice, m'', _) := LJB_DXGK_FindDevice (DXGKARG.hDevice a') m' in
  MyDevice = p /\
  matches (DXGKARG.hDevice a') m' = [p] /\
  hDevice (deref (NonPagedPool m') p) = DXGKARG.hDevice a' /\
  hRTDevice (deref (NonPagedPool m') p) = DXGKARG.hDevice a /\
  ClientDeviceListHead (GlobalDriverData m'') =
    ClientDeviceListHead (GlobalDriverData m') /\
  NonPagedPool m'' = NonPagedPool m'.
Proof.
  intros p r Hret Hfresh Hnew.
  apply CreateDevice_success_inv in Hret as [Hp Hok].
  rewrite CreateDevice_run_success by assumption. fold p r.
  rewrite FindDevice_run. unfold matches.
  cbn [GlobalDriverData ClientDeviceListHead NonPagedPool].
  set (fin := finalized _ _ a r).
  assert (Hold : forall q, q ∈ ClientDeviceListHead (GlobalDriverData m) ->
            has_handle (<[p := fin]> (NonPagedPool m))
              (DXGKARG.hDevice (ddi_arg r)) q = false).
  { intros q Hq. rewrite has_handle_insert_ne by (intros ->; done).
    apply has_handle_spec. by apply Hnew. }
  assert (Hnewrec : has_handle (<[p := fin]> (NonPagedPool m))
            (DXGKARG.hDevice (ddi_arg r)) p = true).
  { unfold has_handle. rewrite deref_insert. apply Z.eqb_refl. }
  rewrite find_app_none by exact Hold.
  rewrite List.filter_app, (filter_none _ _ Hold).
  cbn [List.find List.filter app]. rewrite Hnewrec. cbn [default].
  rewrite deref_insert. repeat split.
Qed.

End Lookup.

(** ** The lock *)

Section Locking.

Variable FIND_ADAPTER_BY_DRIVER_ADAPTER : HANDLE -> Z.
Variable LJB_ADAPTER_at : Z -> LJB_ADAPTER.
Variable PoolChoice : gmap Z LJB_DEVICE -> Z.

Local Abbreviation CreateDevice_run :=
  (LJB_DXGK_CreateDevice FIND_ADAPTER_BY_DRIVER_ADAPTER LJB_ADAPTER_at PoolChoice).
Local Abbreviation init_data_of :=
  (init_data FIND_ADAPTER_BY_DRIVER_ADAPTER LJB_ADAPTER_at).
Local Abbreviation ddi_of :=
  (ddi FIND_ADAPTER_BY_DRIVER_ADAPTER LJB_ADAPTER_at).

Lemma lock_discipline_walk seen :
  lock_discipline true (map EvVisit seen ++ [EvKeReleaseSpinLock]) = true.
Proof. induction seen as [|q seen IH]; [reflexivity | exact IH]. Qed.

(** C8: in a creation and in a lookup entered with the lock free, the
    events obey the lock discipline: the pool, the inbox driver and the
    stores to the private block are used with the lock free, the device
    list is touched only with the lock held, and acquisitions and
    releases alternate and end with a release.  A creation takes the
    lock at most once, and then its last three events are the
    acquisition, the tail insertion and the release; a lookup is an
    acquisition, the walk over the entries, and the release.  Both
    return with the lock free and the IRQL they were entered at. *)
Theorem C8_lock_held_only_around_list_access hAdapter a h m :
  let p := PoolChoice (NonPagedPool m) in
  ClientDeviceListLock (GlobalDriverData m) = false ->
  let '(_, _, m1, t1) := CreateDevice_run hAdapter a m in
  let '(_, m2, t2) := LJB_DXGK_FindDevice h m in
  lock_discipline false t1 = true /\
  lock_discipline false t2 = true /\
  (List.filter is_lock_event t1 = [] \/
   exists t0, t1 = t0 ++ [EvKeAcquireSpinLock; EvInsertTailList p;
                          EvKeReleaseSpinLock] /\
              List.filter is_lock_event t0 = []) /\
  (exists seen, t2 = [EvKeAcquireSpinLock] ++ map EvVisit seen ++
                     [EvKeReleaseSpinLock]) /\
  ClientDeviceListLock (GlobalDriverData m1) = false /\
  Irql m1 = Irql m /\
  ClientDeviceListLock (GlobalDriverData m2) = false /\
  Irql m2 = Irql m.
Proof.
  intros p Hfree. rewrite FindDevice_run.
  cbn [GlobalDriverData ClientDeviceListLock Irql].
  assert (Hfind : lock_discipline false
            ([EvKeAcquireSpinLock] ++
             map EvVisit (visited (NonPagedPool m) h
                            (ClientDeviceListHead (GlobalDriverData m))) ++
             [EvKeReleaseSpinLock]) = true)
    by apply lock_discipline_walk.
  destruct (decide (p = NULL)) as [Hnull | Hp].
  { rewrite CreateDevice_run_no_memory by exact Hnull.
    repeat split; eauto. }
  destruct (NT_SUCCESS (ddi_status (ddi_of hAdapter a))) eqn:Hs.
  - rewrite CreateDevice_run_success by assumption. fold p.
    cbn [GlobalDriverData ClientDeviceListLock Irql].
    split; [|split; [exact Hfind|split; [|repeat split; eauto]]].
    + cbn [app lock_discipline negb andb].
      rewrite lock_discipline_populate. unfold finalize_events.
      destruct (captures a (ddi_of hAdapter a)); reflexivity.
    + right.
      exists ([EvGetPoolZero p] ++
              populate_events p (Version (init_data_of hAdapter)) ++
              [EvDdiCreateDevice hAdapter a] ++
              finalize_events p a (ddi_of hAdapter a)).
      split; [unfold publish_events; by rewrite <- !app_assoc|].
      rewrite !List.filter_app, lock_events_populate, lock_events_finalize.
      reflexivity.
  - rewrite CreateDevice_run_failure by assumption. fold p.
    cbn [GlobalDriverData ClientDeviceListLock Irql].
    split; [|split; [exact Hfind|split; [|repeat split; eauto]]].
    + cbn [app lock_discipline negb andb].
      rewrite lock_discipline_populate. reflexivity.
    + left. rewrite !List.filter_app, lock_events_populate. reflexivity.
Qed.

End Locking.

(** * Scenarios *)

(** The scenario of the specification: runtime handle 0x100, flag word 1,
    WDDM 2.0, process association (7, 0x55); the driver succeeds with
    handle 0x200 and leaves the slot as supplied.  The lookup of 0x200
    then returns the new block, whose record has runtime handle 0x100, no
    device info and process association (7, 0x55). *)
Example scenario_lookup_after_creation :
  let m' := after_0x100_plain in
  let MyDevice := (LJB_DXGK_FindDevice 0x200 m').1.1 in
  let d := deref (NonPagedPool m') MyDevice in
  MyDevice = 0x1000 /\
  hRTDevice d = 0x100 /\
  DeviceInfo d = DXGK_DEVICEINFO_zero /\
  DXGKARG.Pasid (CreateDevice d) = 7 /\
  DXGKARG.hKmdProcess (CreateDevice d) = 0x55.
Proof. vm_compute. repeat split. Qed.

(** A lookup of a handle nobody was assigned returns NULL. *)
Example scenario_lookup_unknown_handle :
  (LJB_DXGK_FindDevice 0x201 after_0x100_plain).1.1 = NULL.
Proof. reflexivity. Qed.

(** C1, as worded, fails: the request slot holds 0xFFFFF80000000000 and
    the driver succeeds without touching it, so the pointer found after
    the call is the pointer that was passed; yet [DeviceInfo] is stored,
    with the contents of the block behind that pointer, because the
    record's copy of the request holds only the flag word, 0. *)
Lemma C1_counterexample_unchanged_pInfo_is_captured :
  ~ captured_iff_pInfo_replaced find_adapter wddm20_slot_kept bump_pool
      0xAA request_wide boot.
Proof.
  unfold captured_iff_pInfo_replaced. intros H.
  rewrite CreateDevice_run_success in H by (vm_compute; done).
  destruct H as [Hiff _]; [vm_compute; done | reflexivity |].
  apply Hiff; [|reflexivity].
  apply list_elem_of_In. vm_compute. tauto.
Qed.

(** C1: the creation is meant to copy [*pInfo] only when the driver
    replaced the pointer it was given, and line 119 compares with the
    record's own copy of the request for that; but the copy was filled
    through the 32-bit [Flags] view of the slot.  At a request whose slot
    holds 0xFFFFF80000000000, served by a driver that succeeds and does
    not touch the slot, the pointer found after the call is the pointer
    that was passed, the record's copy reads the flag word 0 instead, the
    store to [DeviceInfo] happens, and [DeviceInfo] holds the contents of
    the block behind the caller's pointer rather than zero. *)
Theorem C1_wide_slot_captured_though_pInfo_unchanged :
  let '(ntStatus, a', m', t) :=
    LJB_DXGK_CreateDevice find_adapter wddm20_slot_kept bump_pool 0xAA
      request_wide boot in
  let p := bump_pool (NonPagedPool boot) in
  let d := deref (NonPagedPool m') p in
  NT_SUCCESS ntStatus = true /\
  DXGKARG.pInfo a' = DXGKARG.pInfo request_wide /\
  DXGKARG.pInfo (CreateDevice d) = DXGKARG.Flags request_wide /\
  DXGKARG.pInfo (CreateDevice d) ≠ DXGKARG.pInfo request_wide /\
  EvStore p m_DeviceInfo ∈ t /\
  stores p m_DeviceInfo t = 1%nat /\
  DeviceInfo d = some_info /\
  DeviceInfo d ≠ DXGK_DEVICEINFO_zero.
Proof.
  rewrite CreateDevice_run_success by (vm_compute; done).
  cbn [NonPagedPool]. rewrite deref_insert.
  repeat split; try (vm_compute; done).
  apply list_elem_of_In. vm_compute. tauto.
Qed.

(** C6, as worded, fails: after the record for runtime handle 0x100 was
    registered under driver handle 0x200, a second creation, for runtime
    handle 0x101, to which the driver assigns 0x200 again, returns
    success; the lookup of 0x200 then returns the first block, 0x1000,
    not the block 0x1100 of the creation that has just returned. *)
Lemma C6_counterexample_earlier_record_shadows :
  ~ created_is_the_one_found find_adapter wddm20_plain bump_pool
      0xAA request_0x101 after_0x100_plain.
Proof.
  unfold created_is_the_one_found. intros H. vm_compute in H.
  destruct (H eq_refl) as [Hfound _]. discriminate Hfound.
Qed.

(** * Instances of the theorems *)

(** The capture test at the WDDM 2.0 adapter whose driver publishes an
    info block at 0x2000, for the request with flag word 1. *)
Lemma C1_witness_info_block_published :
  let hAdapter := 0xAA in
  let a := request_0x100 in
  let m := boot in
  let p := bump_pool (NonPagedPool m) in
  let r := ddi find_adapter wddm20_info hAdapter a in
  (p ≠ NULL /\ NT_SUCCESS (ddi_status r) = true) /\
  let '(_, a', m', t) :=
    LJB_DXGK_CreateDevice find_adapter wddm20_info bump_pool hAdapter a m in
  let d := deref (NonPagedPool m') p in
  DXGKARG.pInfo (CreateDevice d) = DXGKARG.Flags a /\
  (EvStore p m_DeviceInfo ∈ t <-> DXGKARG.pInfo a' ≠ DXGKARG.Flags a) /\
  DeviceInfo d =
    (if bool_decide (DXGKARG.pInfo a' ≠ DXGKARG.Flags a)
     then ddi_info r else DXGK_DEVICEINFO_zero) /\
  (0 <= DXGKARG.pInfo a < 0x100000000 ->
   (EvStore p m_DeviceInfo ∈ t <-> DXGKARG.pInfo a' ≠ DXGKARG.pInfo a) /\
   DeviceInfo d =
     (if bool_decide (DXGKARG.pInfo a' ≠ DXGKARG.pInfo a)
      then ddi_info r else DXGK_DEVICEINFO_zero)).
Proof.
  intros hAdapter a m p r.
  assert (Hp : p ≠ NULL) by (vm_compute; discriminate).
  assert (Hok : NT_SUCCESS (ddi_status r) = true) by reflexivity.
  split; [split; [exact Hp | exact Hok]|].
  exact (C1_DeviceInfo_captured_iff_pInfo_differs_from_recorded
           find_adapter wddm20_info bump_pool hAdapter a m Hp Hok).
Defined.

(** C2 at the adapter whose driver fails with STATUS_UNSUCCESSFUL. *)
Lemma C2_witness_failing_driver :
  let hAdapter := 0xAA in
  let a := request_0x100 in
  let m := boot in
  let p := bump_pool (NonPagedPool m) in
  let r := ddi find_adapter wddm20_failing hAdapter a in
  (p ≠ NULL /\ NT_SUCCESS (ddi_status r) = false) /\
  let '(ntStatus, _, m', t) :=
    LJB_DXGK_CreateDevice find_adapter wddm20_failing bump_pool hAdapter a m in
  ntStatus = ddi_status r /\
  last t = Some (EvFreePool p) /\
  NonPagedPool m' !! p = None /\
  NonPagedPool m' = delete p (NonPagedPool m) /\
  GlobalDriverData m' = GlobalDriverData m /\
  (forall q, EvInsertTailList q ∉ t).
Proof.
  intros hAdapter a m p r.
  assert (Hp : p ≠ NULL) by (vm_compute; discriminate).
  assert (Hko : NT_SUCCESS (ddi_status r) = false) by reflexivity.
  split; [split; [exact Hp | exact Hko]|].
  exact (C2_downstream_failure_unwinds
           find_adapter wddm20_failing bump_pool hAdapter a m Hp Hko).
Defined.

(** C3 at the exhausted pool. *)
Lemma C3_witness_exhausted_pool :
  let hAdapter := 0xAA in
  let a := request_0x100 in
  let m := boot in
  exhausted_pool (NonPagedPool m) = NULL /\
  let '(ntStatus, a', m', t) :=
    LJB_DXGK_CreateDevice find_adapter wddm20_plain exhausted_pool hAdapter a m in
  ntStatus = STATUS_NO_MEMORY /\
  NT_SUCCESS ntStatus = false /\
  ddi_calls t = 0%nat /\
  t = [EvGetPoolZero NULL] /\
  m' = m /\
  a' = a.
Proof.
  intros hAdapter a m.
  assert (Hp : exhausted_pool (NonPagedPool m) = NULL) by reflexivity.
  split; [exact Hp|].
  exact (C3_no_memory_short_circuits
           find_adapter wddm20_plain exhausted_pool hAdapter a m Hp).
Defined.

(** C4 at the WDDM 1.3 adapter: the request carries (7, 0x55), the
    record keeps zeros. *)
Lemma C4_witness_below_threshold :
  let hAdapter := 0xAA in
  let a := request_0x100 in
  let m := boot in
  let p := bump_pool (NonPagedPool m) in
  let version := Version (init_data find_adapter wddm13_info hAdapter) in
  let r := ddi find_adapter wddm13_info hAdapter a in
  p ≠ NULL /\
  let '(_, _, m', t) :=
    LJB_DXGK_CreateDevice find_adapter wddm13_info bump_pool hAdapter a m in
  let d := CreateDevice (deref (NonPagedPool m') p) in
  (stores p m_CreateDevice_Pasid t = 1%nat /\
   stores p m_CreateDevice_hKmdProcess t = 1%nat <->
   DXGKDDI_INTERFACE_VERSION_WDDM2_0 <= version) /\
  (stores p m_CreateDevice_Pasid t = 0%nat /\
   stores p m_CreateDevice_hKmdProcess t = 0%nat <->
   version < DXGKDDI_INTERFACE_VERSION_WDDM2_0) /\
  (NT_SUCCESS (ddi_status r) = true ->
   (DXGKDDI_INTERFACE_VERSION_WDDM2_0 <= version ->
    DXGKARG.Pasid d = DXGKARG.Pasid a /\
    DXGKARG.hKmdProcess d = DXGKARG.hKmdProcess a) /\
   (version < DXGKDDI_INTERFACE_VERSION_WDDM2_0 ->
    DXGKARG.Pasid d = 0 /\ DXGKARG.hKmdProcess d = 0)).
Proof.
  intros hAdapter a m p version r.
  assert (Hp : p ≠ NULL) by (vm_compute; discriminate).
  split; [exact Hp|].
  exact (C4_process_association_gated
           find_adapter wddm13_info bump_pool hAdapter a m Hp).
Defined.

(** C5 at the first creation after boot. *)
Lemma C5_witness_first_creation :
  let hAdapter := 0xAA in
  let a := request_0x100 in
  let m := boot in
  let p := bump_pool (NonPagedPool m) in
  let r := ddi find_adapter wddm20_plain hAdapter a in
  (p ≠ NULL /\ p ∉ ClientDeviceListHead (GlobalDriverData m)) /\
  let '(_, a', m', t) :=
    LJB_DXGK_CreateDevice find_adapter wddm20_plain bump_pool hAdapter a m in
  (p ∈ ClientDeviceListHead (GlobalDriverData m') <->
   NT_SUCCESS (ddi_status r) = true) /\
  (NT_SUCCESS (ddi_status r) = true ->
   stores p m_hDevice t = 1%nat /\
   precedes (EvDdiCreateDevice hAdapter a) (EvStore p m_hDevice) t /\
   precedes (EvStore p m_hDevice) (EvInsertTailList p) t /\
   hDevice (deref (NonPagedPool m') p) = DXGKARG.hDevice a') /\
  (NT_SUCCESS (ddi_status r) = false ->
   stores p m_hDevice t = 0%nat /\
   (forall q, EvInsertTailList q ∉ t) /\
   ClientDeviceListHead (GlobalDriverData m') =
     ClientDeviceListHead (GlobalDriverData m)).
Proof.
  intros hAdapter a m p r.
  assert (Hp : p ≠ NULL) by (vm_compute; discriminate).
  assert (Hfresh : p ∉ ClientDeviceListHead (GlobalDriverData m))
    by apply not_elem_of_nil.
  split; [split; [exact Hp | exact Hfresh]|].
  exact (C5_registered_iff_created
           find_adapter wddm20_plain bump_pool hAdapter a m Hp Hfresh).
Defined.

(** C6 at a second creation, for runtime handle 0x101, after the record
    for 0x100 was registered under 0x200; the driver assigns 0x201. *)
Lemma C6_witness_second_creation :
  let hAdapter := 0xAA in
  let a := request_0x101 in
  let m := after_0x100_offset in
  let p := bump_pool (NonPagedPool m) in
  let r := ddi find_adapter wddm20_offset hAdapter a in
  (NT_SUCCESS
     (LJB_DXGK_CreateDevice find_adapter wddm20_offset bump_pool
        hAdapter a m).1.1.1 = true /\
   (p ∉ ClientDeviceListHead (GlobalDriverData m)) /\
   (forall q, q ∈ ClientDeviceListHead (GlobalDriverData m) ->
              hDevice (deref (NonPagedPool m) q) ≠ DXGKARG.hDevice (ddi_arg r))) /\
  let '(_, a', m', _) :=
    LJB_DXGK_CreateDevice find_adapter wddm20_offset bump_pool hAdapter a m in
  let '(MyDevice, m'', _) := LJB_DXGK_FindDevice (DXGKARG.hDevice a') m' in
  MyDevice = p /\
  matches (DXGKARG.hDevice a') m' = [p] /\
  hDevice (deref (NonPagedPool m') p) = DXGKARG.hDevice a' /\
  hRTDevice (deref (NonPagedPool m') p) = DXGKARG.hDevice a /\
  ClientDeviceListHead (GlobalDriverData m'') =
    ClientDeviceListHead (GlobalDriverData m') /\
  NonPagedPool m'' = NonPagedPool m'.
Proof.
  intros hAdapter a m p r.
  assert (Hret : NT_SUCCESS
            (LJB_DXGK_CreateDevice find_adapter wddm20_offset bump_pool
               hAdapter a m).1.1.1 = true) by (vm_compute; reflexivity).
  assert (Hfresh : p ∉ ClientDeviceListHead (GlobalDriverData m)).
  { intros Hin. apply list_elem_of_In in Hin. vm_compute in Hin.
    destruct Hin as [Heq | []]. discriminate Heq. }
  assert (Hnew : forall q, q ∈ ClientDeviceListHead (GlobalDriverData m) ->
            hDevice (deref (NonPagedPool m) q) ≠ DXGKARG.hDevice (ddi_arg r)).
  { intros q Hin. apply list_elem_of_In in Hin. vm_compute in Hin.
    destruct Hin as [<- | []]. vm_compute. discriminate. }
  split; [split; [exact Hret | split; [exact Hfresh | exact Hnew]]|].
  exact (C6_created_record_found_when_handle_is_new
           find_adapter wddm20_offset bump_pool hAdapter a m Hret Hfresh Hnew).
Defined.

(** C8 at boot, for a creation and for the lookup of 0x200. *)
Lemma C8_witness_from_boot :
  let hAdapter := 0xAA in
  let a := request_0x100 in
  let h := 0x200 in
  let m := boot in
  let p := bump_pool (NonPagedPool m) in
  ClientDeviceListLock (GlobalDriverData m) = false /\
  let '(_, _, m1, t1) :=
    LJB_DXGK_CreateDevice find_adapter wddm20_plain bump_pool hAdapter a m in
  let '(_, m2, t2) := LJB_DXGK_FindDevice h m in
  lock_discipline false t1 = true /\
  lock_discipline false t2 = true /\
  (List.filter is_lock_event t1 = [] \/
   exists t0, t1 = t0 ++ [EvKeAcquireSpinLock; EvInsertTailList p;
                          EvKeReleaseSpinLock] /\
              List.filter is_lock_event t0 = []) /\
  (exists seen, t2 = [EvKeAcquireSpinLock] ++ map EvVisit seen ++
                     [EvKeReleaseSpinLock]) /\
  ClientDeviceListLock (GlobalDriverData m1) = false /\
  Irql m1 = Irql m /\
  ClientDeviceListLock (GlobalDriverData m2) = false /\
  Irql m2 = Irql m.
Proof.
  intros hAdapter a h m p.
  assert (Hfree : ClientDeviceListLock (GlobalDriverData m) = false)
    by reflexivity.
  split; [exact Hfree|].
  exact (C8_lock_held_only_around_list_access
           find_adapter wddm20_plain bump_pool hAdapter a h m Hfree).
Defined.

(** C9 at the adapter whose driver answers STATUS_PENDING, a success
    code other than STATUS_SUCCESS. *)
Lemma C9_witness_pending :
  let hAdapter := 0xAA in
  let a := request_0x100 in
  let m := boot in
  let r := ddi find_adapter wddm20_pending hAdapter a in
  bump_pool (NonPagedPool m) ≠ NULL /\
  let '(ntStatus, _, _, t) :=
    LJB_DXGK_CreateDevice find_adapter wddm20_pending bump_pool hAdapter a m in
  EvDdiCreateDevice hAdapter a ∈ t /\
  ddi_calls t = 1%nat /\
  ntStatus = ddi_status r.
Proof.
  intros hAdapter a m r.
  assert (Hp : bump_pool (NonPagedPool m) ≠ NULL) by (vm_compute; discriminate).
  split; [exact Hp|].
  exact (C9_status_passed_through
           find_adapter wddm20_pending bump_pool hAdapter a m Hp).
Defined.

(** C10 at the adapter whose driver writes handle 0x200 and info pointer
    0x2000 into the request and then fails. *)
Lemma C10_witness_failing_driver :
  let hAdapter := 0xAA in
  let a := request_0x100 in
  let m := boot in
  let p := bump_pool (NonPagedPool m) in
  let r := ddi find_adapter wddm20_failing hAdapter a in
  (p ≠ NULL /\ NT_SUCCESS (ddi_status r) = false) /\
  let '(ntStatus, a', m', _) :=
    LJB_DXGK_CreateDevice find_adapter wddm20_failing bump_pool hAdapter a m in
  a' = ddi_arg r /\
  ntStatus = ddi_status r /\
  m' = with_pool (delete p (NonPagedPool m)) m.
Proof.
  intros hAdapter a m p r.
  assert (Hp : p ≠ NULL) by (vm_compute; discriminate).
  assert (Hko : NT_SUCCESS (ddi_status r) = false) by reflexivity.
  split; [split; [exact Hp | exact Hko]|].
  exact (C10_request_left_as_driver_wrote_it
           find_adapter wddm20_failing bump_pool hAdapter a m Hp Hko).
Defined.

(** In that run the caller finds the driver's handle and info pointer in
    the request, and the driver's status as the result. *)
Example scenario_failed_creation_leaves_driver_writes :
  let '(ntStatus, a', m', _) :=
    LJB_DXGK_CreateDevice find_adapter wddm20_failing bump_pool 0xAA
      request_0x100 boot in
  ntStatus = STATUS_UNSUCCESSFUL /\
  DXGKARG.hDevice a' = 0x200 /\
  DXGKARG.pInfo a' = 0x2000 /\
  a' ≠ request_0x100 /\
  (LJB_DXGK_FindDevice 0x200 m').1.1 = NULL /\
  (LJB_DXGK_FindDevice 0x100 m').1.1 = NULL.
Proof. vm_compute. repeat split. discriminate. Qed.

(** * Further properties of the registry *)

(** ** Lists *)

Lemma find_app_split {A} (f : A -> bool) (l1 l2 : list A) :
  List.find f (l1 ++ l2) =
  match List.find f l1 with Some x => Some x | None => List.find f l2 end.
Proof.
  induction l1 as [|x l1 IH]; [done|]. simpl. by destruct (f x).
Qed.

Lemma find_agree {A} (f g : A -> bool) (l : list A) :
  (forall x, x ∈ l -> f x = g x) -> List.find f l = List.find g l.
Proof.
  induction l as [|x l IH]; [done|]. intros Hall. simpl.
  rewrite (Hall x) by apply list_elem_of_here.
  rewrite IH; [done|]. intros y Hy. apply Hall. by apply list_elem_of_further.
Qed.

Lemma filter_agree {A} (f g : A -> bool) (l : list A) :
  (forall x, x ∈ l -> f x = g x) -> List.filter f l = List.filter g l.
Proof.
  induction l as [|x l IH]; [done|]. intros Hall. simpl.
  rewrite (Hall x) by apply list_elem_of_here.
  rewrite IH; [done|]. intros y Hy. apply Hall. by apply list_elem_of_further.
Qed.

Lemma find_none_filter {A} (f : A -> bool) (l : list A) :
  List.find f l = None <-> List.filter f l = [].
Proof.
  induction l as [|x l IH]; [done|]. simpl. destruct (f x); [|exact IH].
  split; intros H; discriminate H.
Qed.

Lemma map_agree {A B} (f g : A -> B) (l : list A) :
  (forall x, x ∈ l -> f x = g x) -> map f l = map g l.
Proof.
  induction l as [|x l IH]; [done|]. intros Hall. simpl.
  rewrite (Hall x) by apply list_elem_of_here.
  rewrite IH; [done|]. intros y Hy. apply Hall. by apply list_elem_of_further.
Qed.

(** ** Blocks other than the one allocated *)

Lemma deref_delete_ne (pool : gmap Z LJB_DEVICE) p q :
  p ≠ q -> deref (delete p pool) q = deref pool q.
Proof. intros Hne. unfold deref. by rewrite lookup_delete_ne. Qed.

Section Registry.

Variable FIND_ADAPTER_BY_DRIVER_ADAPTER : HANDLE -> Z.
Variable LJB_ADAPTER_at : Z -> LJB_ADAPTER.
Variable PoolChoice : gmap Z LJB_DEVICE -> Z.

Local Abbreviation CreateDevice_run :=
  (LJB_DXGK_CreateDevice FIND_ADAPTER_BY_DRIVER_ADAPTER LJB_ADAPTER_at PoolChoice).
Local Abbreviation init_data_of :=
  (init_data FIND_ADAPTER_BY_DRIVER_ADAPTER LJB_ADAPTER_at).
Local Abbreviation ddi_of :=
  (ddi FIND_ADAPTER_BY_DRIVER_ADAPTER LJB_ADAPTER_at).

(** The three outcomes of a creation, with the machine each leaves. *)
Lemma CreateDevice_outcomes hAdapter a m :
  let p := PoolChoice (NonPagedPool m) in
  let r := ddi_of hAdapter a in
  let run := CreateDevice_run hAdapter a m in
  (p = NULL /\ run.1.1 = (STATUS_NO_MEMORY, a) /\ run.1.2 = m)
  \/
  (p ≠ NULL /\ NT_SUCCESS (ddi_status r) = false /\
   run.1.1 = (ddi_status r, ddi_arg r) /\
   run.1.2 = {| GlobalDriverData := GlobalDriverData m;
                NonPagedPool := delete p (NonPagedPool m);
                Irql := Irql m |})
  \/
  (p ≠ NULL /\ NT_SUCCESS (ddi_status r) = true /\
   run.1.1 = (ddi_status r, ddi_arg r) /\
   run.1.2 = {| GlobalDriverData :=
                  {| ClientDeviceListHead :=
                       ClientDeviceListHead (GlobalDriverData m) ++ [p];
                     ClientDeviceListLock := false |};
                NonPagedPool :=
                  <[p := finalized (FIND_ADAPTER_BY_DRIVER_ADAPTER hAdapter)
                           (Version (init_data_of hAdapter)) a r]>
                    (NonPagedPool m);
                Irql := Irql m |}).
Proof.
  intros p r run. unfold run.
  destruct (decide (p = NULL)) as [Hnull | Hp].
  { left. by rewrite CreateDevice_run_no_memory. }
  destruct (NT_SUCCESS (ddi_status r)) eqn:Hs.
  - right; right. by rewrite CreateDevice_run_success.
  - right; left. by rewrite CreateDevice_run_failure.
Qed.

(** X4: whatever its outcome, a creation leaves every pool block other
    than the one it allocated as it was, and the device list either as
    it was or with that one block appended: no entry is removed, moved
    or rewritten. *)
Theorem CreateDevice_touches_only_its_block hAdapter a m :
  let p := PoolChoice (NonPagedPool m) in
  let '(_, _, m', _) :=
    LJB_DXGK_CreateDevice FIND_ADAPTER_BY_DRIVER_ADAPTER LJB_ADAPTER_at
      PoolChoice hAdapter a m in
  (forall q, q ≠ p -> NonPagedPool m' !! q = NonPagedPool m !! q) /\
  (ClientDeviceListHead (GlobalDriverData m') =
     ClientDeviceListHead (GlobalDriverData m) \/
   ClientDeviceListHead (GlobalDriverData m') =
     ClientDeviceListHead (GlobalDriverData m) ++ [p]).
Proof.
  intros p.
  destruct (CreateDevice_outcomes hAdapter a m)
    as [(_ & _ & Hm) | [(_ & _ & _ & Hm) | (_ & _ & _ & Hm)]];
    destruct (CreateDevice_run hAdapter a m) as [[[s a'] m'] t];
    cbn in Hm; subst m'; cbn.
  - split; [done | by left].
  - split; [|by left]. intros q Hq. by rewrite lookup_delete_ne.
  - split; [|by right]. intros q Hq. by rewrite lookup_insert_ne.
Qed.

(** X6: a creation that returns a failure status, for want of memory or
    because the inbox driver refused, from a pool that hands out fresh
    blocks, leaves the machine exactly as it found it: no block stays
    allocated and the device list, the lock and the IRQL are the same. *)
Theorem CreateDevice_failure_restores_machine hAdapter a m :
  fresh_choice PoolChoice m ->
  NT_SUCCESS (CreateDevice_run hAdapter a m).1.1.1 = false ->
  (CreateDevice_run hAdapter a m).1.2 = m.
Proof.
  intros Hfresh Hret.
  destruct (CreateDevice_outcomes hAdapter a m)
    as [(_ & _ & Hm) | [(Hp & _ & _ & Hm) | (_ & Hs & Hst & _)]].
  - exact Hm.
  - rewrite Hm, delete_id by (by apply Hfresh). by destruct m.
  - rewrite Hst in Hret. cbn in Hret. congruence.
Qed.

(** X7: the record a successful creation links in is the last entry of
    the device list; it refers to the adapter the handle resolved to and
    keeps the runtime handle and the flag word exactly as the caller
    passed them, next to the handle the driver assigned. *)
Theorem CreateDevice_record_keeps_request hAdapter a m :
  let p := PoolChoice (NonPagedPool m) in
  NT_SUCCESS (CreateDevice_run hAdapter a m).1.1.1 = true ->
  let '(_, a', m', _) := CreateDevice_run hAdapter a m in
  let d := deref (NonPagedPool m') p in
  last (ClientDeviceListHead (GlobalDriverData m')) = Some p /\
  Adapter d = FIND_ADAPTER_BY_DRIVER_ADAPTER hAdapter /\
  hRTDevice d = DXGKARG.hDevice a /\
  DXGKARG.hDevice (CreateDevice d) = DXGKARG.hDevice a /\
  DXGKARG.Flags (CreateDevice d) = DXGKARG.Flags a /\
  hDevice d = DXGKARG.hDevice a'.
Proof.
  intros p Hret.
  apply CreateDevice_success_inv in Hret as [Hp Hok].
  rewrite CreateDevice_run_success by assumption. fold p.
  cbn [GlobalDriverData ClientDeviceListHead NonPagedPool].
  rewrite deref_insert, last_snoc.
  cbn [finalized Adapter hRTDevice CreateDevice hDevice snapshot DXGKARG.hDevice].
  repeat split.
  unfold DXGKARG.Flags, snapshot. cbn [DXGKARG.FlagsOrInfo].
  unfold DXGKARG.Flags. by rewrite <- Z.land_assoc.
Qed.

End Registry.

(** ** Lookups across creations *)

Lemma find_by_own_handle pool (l : list Z) q :
  NoDup (map (fun x => hDevice (deref pool x)) l) ->
  q ∈ l ->
  List.find (has_handle pool (hDevice (deref pool q))) l = Some q.
Proof.
  induction l as [|x l IH]; intros Hnodup Hq.
  - by apply elem_of_nil in Hq.
  - cbn [map] in Hnodup. apply NoDup_cons in Hnodup as [Hx Hnodup].
    cbn [List.find]. unfold has_handle at 1.
    destruct (Z.eqb_spec (hDevice (deref pool x)) (hDevice (deref pool q)))
      as [Heq | Hne].
    + apply elem_of_cons in Hq as [-> | Hq]; [done|].
      exfalso. apply Hx. rewrite Heq.
      apply (list_elem_of_fmap_2 (fun x => hDevice (deref pool x))). exact Hq.
    + apply elem_of_cons in Hq as [-> | Hq]; [done|]. by apply IH.
Qed.

(** X3: in a registry where no two entries carry the same driver
    handle, looking up the handle recorded in any linked record returns
    that very record. *)
Theorem FindDevice_finds_every_registered_record m q :
  unique_handles m ->
  q ∈ ClientDeviceListHead (GlobalDriverData m) ->
  (LJB_DXGK_FindDevice (handle_of m q) m).1.1 = q.
Proof.
  intros Huniq Hq. rewrite FindDevice_run. cbn [fst].
  unfold handle_of. by rewrite find_by_own_handle.
Qed.

Section Across.

Variable FIND_ADAPTER_BY_DRIVER_ADAPTER : HANDLE -> Z.
Variable LJB_ADAPTER_at : Z -> LJB_ADAPTER.
Variable PoolChoice : gmap Z LJB_DEVICE -> Z.

Local Abbreviation CreateDevice_run :=
  (LJB_DXGK_CreateDevice FIND_ADAPTER_BY_DRIVER_ADAPTER LJB_ADAPTER_at PoolChoice).
Local Abbreviation init_data_of :=
  (init_data FIND_ADAPTER_BY_DRIVER_ADAPTER LJB_ADAPTER_at).
Local Abbreviation ddi_of :=
  (ddi FIND_ADAPTER_BY_DRIVER_ADAPTER LJB_ADAPTER_at).

(** X5: how a creation changes what lookups return, when the block it
    allocates is not already linked.  A handle that some linked record
    carried before is found exactly as before, also when the driver has
    just assigned the same handle to the new device.  A handle that no
    record carried is found afterwards only if the creation returned
    success and the driver assigned that handle, and then the lookup
    returns the new block; in every other case it is still not found. *)
Theorem CreateDevice_effect_on_lookups hAdapter a h m :
  let p := PoolChoice (NonPagedPool m) in
  p ∉ ClientDeviceListHead (GlobalDriverData m) ->
  let '(ntStatus, a', m', _) := CreateDevice_run hAdapter a m in
  let found := (LJB_DXGK_FindDevice h m).1.1 in
  let found' := (LJB_DXGK_FindDevice h m').1.1 in
  (matches h m ≠ [] -> found' = found) /\
  (matches h m = [] -> NT_SUCCESS ntStatus = true -> DXGKARG.hDevice a' = h ->
   found' = p) /\
  (matches h m = [] -> NT_SUCCESS ntStatus = false \/ DXGKARG.hDevice a' ≠ h ->
   found' = NULL).
Proof.
  intros p Hfresh.
  destruct (CreateDevice_outcomes FIND_ADAPTER_BY_DRIVER_ADAPTER LJB_ADAPTER_at
              PoolChoice hAdapter a m)
    as [(_ & Hst & Hm) | [(Hp & Hs & Hst & Hm) | (Hp & Hs & Hst & Hm)]];
    fold p in Hm;
    destruct (CreateDevice_run hAdapter a m) as [[[s a'] m'] t];
    cbn in Hst, Hm; injection Hst as -> ->; subst m';
    rewrite !FindDevice_run;
    cbn [fst GlobalDriverData ClientDeviceListHead NonPagedPool];
    unfold matches; rewrite <- !find_none_filter.
  - repeat split; try done. by intros ->.
  - assert (Hsame :
      List.find (has_handle (delete p (NonPagedPool m)) h)
        (ClientDeviceListHead (GlobalDriverData m)) =
      List.find (has_handle (NonPagedPool m) h)
        (ClientDeviceListHead (GlobalDriverData m))).
    { apply find_agree. intros q Hq. unfold has_handle.
      rewrite deref_delete_ne; [done|]. by intros ->. }
    rewrite Hsame. repeat split; try done.
    + intros _ Hok. congruence.
    + by intros ->.
  - set (fin := finalized _ _ a _).
    assert (Hsame :
      List.find (has_handle (<[p := fin]> (NonPagedPool m)) h)
        (ClientDeviceListHead (GlobalDriverData m)) =
      List.find (has_handle (NonPagedPool m) h)
        (ClientDeviceListHead (GlobalDriverData m))).
    { apply find_agree. intros q Hq.
      apply has_handle_insert_ne. by intros ->. }
    rewrite find_app_split, Hsame.
    destruct (List.find (has_handle (NonPagedPool m) h)
                (ClientDeviceListHead (GlobalDriverData m))) as [q|] eqn:Hfind.
    + repeat split; try done.
    + cbn [List.find]. unfold has_handle.
      rewrite deref_insert. subst fin. cbn [finalized hDevice].
      repeat split; try done.
      * intros _ _ ->. by rewrite Z.eqb_refl.
      * intros _ [Hko | Hne]; [congruence|].
        by apply Z.eqb_neq in Hne as ->.
Qed.

(** X2: when the block a creation allocates is not already linked and
    no two linked records carry the same driver handle, the same holds
    after the creation exactly when the creation did not return success
    or the handle the driver assigned was carried by no linked record:
    the creation itself never checks. *)
Theorem CreateDevice_keeps_unique_handles_iff_new hAdapter a m :
  let p := PoolChoice (NonPagedPool m) in
  p ∉ ClientDeviceListHead (GlobalDriverData m) ->
  unique_handles m ->
  let '(ntStatus, a', m', _) := CreateDevice_run hAdapter a m in
  unique_handles m' <->
  (NT_SUCCESS ntStatus = true ->
   forall q, q ∈ ClientDeviceListHead (GlobalDriverData m) ->
             handle_of m q ≠ DXGKARG.hDevice a').
Proof.
  intros p Hfresh Huniq.
  destruct (CreateDevice_outcomes FIND_ADAPTER_BY_DRIVER_ADAPTER LJB_ADAPTER_at
              PoolChoice hAdapter a m)
    as [(_ & Hst & Hm) | [(Hp & Hs & Hst & Hm) | (Hp & Hs & Hst & Hm)]];
    fold p in Hm;
    destruct (CreateDevice_run hAdapter a m) as [[[s a'] m'] t];
    cbn in Hst, Hm; injection Hst as -> ->; subst m'.
  - split; [intros _ Hok; discriminate Hok | done].
  - split; [intros _ Hok; congruence | intros _].
    unfold unique_handles, handle_of in *.
    cbn [GlobalDriverData ClientDeviceListHead NonPagedPool].
    erewrite map_agree; [exact Huniq|].
    intros q Hq. cbn. rewrite deref_delete_ne; [done | by intros ->].
  - set (fin := finalized _ _ a _).
    unfold unique_handles, handle_of in *.
    cbn [GlobalDriverData ClientDeviceListHead NonPagedPool].
    rewrite map_app. cbn [map]. rewrite deref_insert.
    erewrite (map_agree _ (fun q => hDevice (deref (NonPagedPool m) q)));
      [|intros q Hq; cbn; rewrite deref_insert_ne; [done | by intros ->]].
    cbn [fin finalized hDevice].
    rewrite NoDup_app. split.
    + intros (_ & Hdisj & _) _ q Hq Heq.
      apply (Hdisj (hDevice (deref (NonPagedPool m) q))).
      * apply (list_elem_of_fmap_2 (fun q => hDevice (deref (NonPagedPool m) q))).
        exact Hq.
      * rewrite Heq. apply list_elem_of_here.
    + intros Hnew. split; [exact Huniq|]. split; [|apply NoDup_singleton].
      intros x Hx Hin. apply list_elem_of_singleton in Hin as ->.
      apply list_elem_of_fmap in Hx as (q & Heq & Hq).
      by apply (Hnew Hs q Hq).
Qed.

End Across.

(** ** Reachable machines *)

(** X1: in every machine that creations and lookups lead to from boot,
    with a pool that hands out fresh blocks: the lock is free and the
    IRQL is the one at boot; the live blocks of the pool are exactly the
    linked ones, so no block has leaked and no entry dangles; no block is
    linked twice and NULL is not linked. *)
Theorem reachable_machine_is_consistent m :
  reachable m ->
  ClientDeviceListLock (GlobalDriverData m) = false /\
  Irql m = Irql boot /\
  pool_is_linked m /\
  NoDup (ClientDeviceListHead (GlobalDriverData m)) /\
  NULL ∉ ClientDeviceListHead (GlobalDriverData m).
Proof.
  induction 1 as [| FIND AT Pool hAdapter a m Hreach IH Hfresh | h m Hreach IH].
  - repeat split; try done.
    + apply NoDup_nil_2.
    + apply not_elem_of_nil.
  - destruct IH as (Hlock & Hirql & Hpool & Hnodup & Hnull).
    unfold pool_is_linked in *.
    destruct (CreateDevice_outcomes FIND AT Pool hAdapter a m)
      as [(_ & _ & Hm) | [(Hp & _ & _ & Hm) | (Hp & _ & _ & Hm)]];
      rewrite Hm; cbn [GlobalDriverData ClientDeviceListHead
                       ClientDeviceListLock NonPagedPool Irql].
    + done.
    + rewrite delete_id by (by apply Hfresh). done.
    + assert (Hnotin : Pool (NonPagedPool m) ∉
                       ClientDeviceListHead (GlobalDriverData m)).
      { intros Hin.
        assert (Hd : Pool (NonPagedPool m) ∈ dom (NonPagedPool m))
          by (rewrite Hpool; by apply elem_of_list_to_set).
        apply elem_of_dom in Hd as [d Hd].
        rewrite (Hfresh Hp) in Hd. discriminate Hd. }
      repeat split; try done.
      * rewrite dom_insert_L, Hpool, list_to_set_app_L.
        cbn [list_to_set]. rewrite (right_id_L ∅ (∪)). apply (comm_L (∪)).
      * apply NoDup_app. repeat split; try done.
        -- intros x Hx Hin. apply list_elem_of_singleton in Hin as ->. done.
        -- apply NoDup_singleton.
      * intros Hin. apply elem_of_app in Hin as [Hin | Hin]; [done|].
        apply list_elem_of_singleton in Hin. by symmetry in Hin.
  - rewrite FindDevice_run.
    destruct IH as (Hlock & Hirql & Hpool & Hnodup & Hnull).
    done.
Qed.

(** ** What a run allocates, frees and links *)

Section Accounting.

Variable FIND_ADAPTER_BY_DRIVER_ADAPTER : HANDLE -> Z.
Variable LJB_ADAPTER_at : Z -> LJB_ADAPTER.
Variable PoolChoice : gmap Z LJB_DEVICE -> Z.

Local Abbreviation CreateDevice_run :=
  (LJB_DXGK_CreateDevice FIND_ADAPTER_BY_DRIVER_ADAPTER LJB_ADAPTER_at PoolChoice).
Local Abbreviation ddi_of :=
  (ddi FIND_ADAPTER_BY_DRIVER_ADAPTER LJB_ADAPTER_at).

(** X8: a creation that obtained a block allocates, frees and links no
    other block, and it ends with that block either freed or linked,
    never both and never neither: freed exactly when the inbox driver
    failed, linked exactly when it succeeded. *)
Theorem CreateDevice_block_freed_or_linked hAdapter a m :
  let p := PoolChoice (NonPagedPool m) in
  let r := ddi_of hAdapter a in
  p ≠ NULL ->
  let '(_, _, _, t) := CreateDevice_run hAdapter a m in
  (forall q, EvGetPoolZero q ∈ t \/ EvFreePool q ∈ t \/ EvInsertTailList q ∈ t ->
             q = p) /\
  (EvFreePool p ∈ t <-> NT_SUCCESS (ddi_status r) = false) /\
  (EvInsertTailList p ∈ t <-> NT_SUCCESS (ddi_status r) = true) /\
  (EvFreePool p ∈ t <-> EvInsertTailList p ∉ t).
Proof.
  intros p r Hp.
  destruct (NT_SUCCESS (ddi_status r)) eqn:Hs.
  - rewrite CreateDevice_run_success by assumption. fold p r.
    unfold populate_events, finalize_events, publish_events.
    destruct (DXGKDDI_INTERFACE_VERSION_WDDM2_0 <=? _), (captures a r);
      (split; [intros q; rewrite !list_elem_of_In; cbn; intuition congruence|]);
      rewrite !list_elem_of_In; cbn; intuition congruence.
  - rewrite CreateDevice_run_failure by assumption. fold p r.
    unfold populate_events.
    destruct (DXGKDDI_INTERFACE_VERSION_WDDM2_0 <=? _);
      (split; [intros q; rewrite !list_elem_of_In; cbn; intuition congruence|]);
      rewrite !list_elem_of_In; cbn; intuition congruence.
Qed.

End Accounting.

(** ** NULL as the answer of a lookup *)

(** X9: when NULL is not linked, a lookup returns NULL exactly when no
    linked record carries the handle, and any other result is a linked
    block whose record carries it. *)
Theorem FindDevice_NULL_iff_not_registered h m :
  NULL ∉ ClientDeviceListHead (GlobalDriverData m) ->
  let MyDevice := (LJB_DXGK_FindDevice h m).1.1 in
  (MyDevice = NULL <->
   forall q, q ∈ ClientDeviceListHead (GlobalDriverData m) -> handle_of m q ≠ h) /\
  (MyDevice ≠ NULL ->
   MyDevice ∈ ClientDeviceListHead (GlobalDriverData m) /\
   handle_of m MyDevice = h).
Proof.
  intros Hnull MyDevice. unfold MyDevice, handle_of.
  rewrite FindDevice_run. cbn [fst].
  destruct (visited_find (NonPagedPool m) h
              (ClientDeviceListHead (GlobalDriverData m)))
    as [(Hnone & _ & Hall) | (l1 & q & l2 & Hl & Hfind & Hq & _ & _)].
  - rewrite Hnone. cbn [default from_option id]. split; [|done].
    split; [|done]. intros _ q Hq. apply Z.eqb_neq. by apply Hall.
  - rewrite Hfind. cbn [default from_option id].
    assert (Hin : q ∈ ClientDeviceListHead (GlobalDriverData m)).
    { rewrite Hl. apply elem_of_app. right. apply list_elem_of_here. }
    apply Z.eqb_eq in Hq.
    split; [|done]. split.
    + intros Heq. rewrite Heq in Hin. done.
    + intros Hno. exfalso. by apply (Hno q Hin).
Qed.

(** * Instances of the further properties *)

(** X1 at the machine left by the first creation after boot. *)
Lemma reachable_machine_is_consistent_witness :
  let m := after_0x100_plain in
  reachable m /\
  ClientDeviceListLock (GlobalDriverData m) = false /\
  Irql m = Irql boot /\
  pool_is_linked m /\
  NoDup (ClientDeviceListHead (GlobalDriverData m)) /\
  NULL ∉ ClientDeviceListHead (GlobalDriverData m).
Proof.
  intros m.
  assert (Hfresh : fresh_choice bump_pool boot)
    by (intros _; apply lookup_empty).
  assert (Hreach : reachable m)
    by exact (reach_create find_adapter wddm20_plain bump_pool 0xAA
                request_0x100 boot reach_boot Hfresh).
  split; [exact Hreach|].
  exact (reachable_machine_is_consistent m Hreach).
Defined.

(** X2 at a second creation to which the driver assigns a new handle. *)
Lemma CreateDevice_keeps_unique_handles_iff_new_witness :
  let hAdapter := 0xAA in
  let a := request_0x101 in
  let m := after_0x100_offset in
  let p := bump_pool (NonPagedPool m) in
  ((p ∉ ClientDeviceListHead (GlobalDriverData m)) /\ unique_handles m) /\
  let '(ntStatus, a', m', _) :=
    LJB_DXGK_CreateDevice find_adapter wddm20_offset bump_pool hAdapter a m in
  unique_handles m' <->
  (NT_SUCCESS ntStatus = true ->
   forall q, q ∈ ClientDeviceListHead (GlobalDriverData m) ->
             handle_of m q ≠ DXGKARG.hDevice a').
Proof.
  intros hAdapter a m p.
  assert (Hfresh : p ∉ ClientDeviceListHead (GlobalDriverData m)).
  { intros Hin. apply list_elem_of_In in Hin. vm_compute in Hin.
    destruct Hin as [Heq | []]. discriminate Heq. }
  assert (Huniq : unique_handles m).
  { unfold unique_handles. vm_compute. apply NoDup_singleton. }
  split; [split; [exact Hfresh | exact Huniq]|].
  exact (CreateDevice_keeps_unique_handles_iff_new
           find_adapter wddm20_offset bump_pool hAdapter a m Hfresh Huniq).
Defined.

(** X3 at the record registered by the first creation after boot. *)
Lemma FindDevice_finds_every_registered_record_witness :
  let m := after_0x100_plain in
  let q := 0x1000 in
  (unique_handles m /\ q ∈ ClientDeviceListHead (GlobalDriverData m)) /\
  (LJB_DXGK_FindDevice (handle_of m q) m).1.1 = q.
Proof.
  intros m q.
  assert (Huniq : unique_handles m).
  { unfold unique_handles. vm_compute. apply NoDup_singleton. }
  assert (Hq : q ∈ ClientDeviceListHead (GlobalDriverData m)).
  { vm_compute. apply list_elem_of_here. }
  split; [split; [exact Huniq | exact Hq]|].
  exact (FindDevice_finds_every_registered_record m q Huniq Hq).
Defined.

(** X5 at a second creation to which the driver assigns 0x200 again,
    looking up 0x200. *)
Lemma CreateDevice_effect_on_lookups_witness :
  let hAdapter := 0xAA in
  let a := request_0x101 in
  let h := 0x200 in
  let m := after_0x100_plain in
  let p := bump_pool (NonPagedPool m) in
  (p ∉ ClientDeviceListHead (GlobalDriverData m)) /\
  let '(ntStatus, a', m', _) :=
    LJB_DXGK_CreateDevice find_adapter wddm20_plain bump_pool hAdapter a m in
  let found := (LJB_DXGK_FindDevice h m).1.1 in
  let found' := (LJB_DXGK_FindDevice h m').1.1 in
  (matches h m ≠ [] -> found' = found) /\
  (matches h m = [] -> NT_SUCCESS ntStatus = true -> DXGKARG.hDevice a' = h ->
   found' = p) /\
  (matches h m = [] -> NT_SUCCESS ntStatus = false \/ DXGKARG.hDevice a' ≠ h ->
   found' = NULL).
Proof.
  intros hAdapter a h m p.
  assert (Hfresh : p ∉ ClientDeviceListHead (GlobalDriverData m)).
  { intros Hin. apply list_elem_of_In in Hin. vm_compute in Hin.
    destruct Hin as [Heq | []]. discriminate Heq. }
  split; [exact Hfresh|].
  exact (CreateDevice_effect_on_lookups
           find_adapter wddm20_plain bump_pool hAdapter a h m Hfresh).
Defined.

(** X6 at the adapter whose driver fails, from boot. *)
Lemma CreateDevice_failure_restores_machine_witness :
  let hAdapter := 0xAA in
  let a := request_0x100 in
  let m := boot in
  (fresh_choice bump_pool m /\
   NT_SUCCESS
     (LJB_DXGK_CreateDevice find_adapter wddm20_failing bump_pool
        hAdapter a m).1.1.1 = false) /\
  (LJB_DXGK_CreateDevice find_adapter wddm20_failing bump_pool
     hAdapter a m).1.2 = m.
Proof.
  intros hAdapter a m.
  assert (Hfresh : fresh_choice bump_pool m) by (intros _; apply lookup_empty).
  assert (Hret : NT_SUCCESS
            (LJB_DXGK_CreateDevice find_adapter wddm20_failing bump_pool
               hAdapter a m).1.1.1 = false) by (vm_compute; reflexivity).
  split; [split; [exact Hfresh | exact Hret]|].
  exact (CreateDevice_failure_restores_machine
           find_adapter wddm20_failing bump_pool hAdapter a m Hfresh Hret).
Defined.

(** X7 at the first creation after boot. *)
Lemma CreateDevice_record_keeps_request_witness :
  let hAdapter := 0xAA in
  let a := request_0x100 in
  let m := boot in
  let p := bump_pool (NonPagedPool m) in
  NT_SUCCESS
    (LJB_DXGK_CreateDevice find_adapter wddm20_plain bump_pool
       hAdapter a m).1.1.1 = true /\
  let '(_, a', m', _) :=
    LJB_DXGK_CreateDevice find_adapter wddm20_plain bump_pool hAdapter a m in
  let d := deref (NonPagedPool m') p in
  last (ClientDeviceListHead (GlobalDriverData m')) = Some p /\
  Adapter d = find_adapter hAdapter /\
  hRTDevice d = DXGKARG.hDevice a /\
  DXGKARG.hDevice (CreateDevice d) = DXGKARG.hDevice a /\
  DXGKARG.Flags (CreateDevice d) = DXGKARG.Flags a /\
  hDevice d = DXGKARG.hDevice a'.
Proof.
  intros hAdapter a m p.
  assert (Hret : NT_SUCCESS
            (LJB_DXGK_CreateDevice find_adapter wddm20_plain bump_pool
               hAdapter a m).1.1.1 = true) by (vm_compute; reflexivity).
  split; [exact Hret|].
  exact (CreateDevice_record_keeps_request
           find_adapter wddm20_plain bump_pool hAdapter a m Hret).
Defined.

(** X8 at the adapter whose driver fails, from boot. *)
Lemma CreateDevice_block_freed_or_linked_witness :
  let hAdapter := 0xAA in
  let a := request_0x100 in
  let m := boot in
  let p := bump_pool (NonPagedPool m) in
  let r := ddi find_adapter wddm20_failing hAdapter a in
  p ≠ NULL /\
  let '(_, _, _, t) :=
    LJB_DXGK_CreateDevice find_adapter wddm20_failing bump_pool hAdapter a m in
  (forall q, EvGetPoolZero q ∈ t \/ EvFreePool q ∈ t \/ EvInsertTailList q ∈ t ->
             q = p) /\
  (EvFreePool p ∈ t <-> NT_SUCCESS (ddi_status r) = false) /\
  (EvInsertTailList p ∈ t <-> NT_SUCCESS (ddi_status r) = true) /\
  (EvFreePool p ∈ t <-> EvInsertTailList p ∉ t).
Proof.
  intros hAdapter a m p r.
  assert (Hp : p ≠ NULL) by (vm_compute; discriminate).
  split; [exact Hp|].
  exact (CreateDevice_block_freed_or_linked
           find_adapter wddm20_failing bump_pool hAdapter a m Hp).
Defined.

(** X9 at the machine left by the first creation after boot, for a
    handle nobody was assigned. *)
Lemma FindDevice_NULL_iff_not_registered_witness :
  let h := 0x201 in
  let m := after_0x100_plain in
  (NULL ∉ ClientDeviceListHead (GlobalDriverData m)) /\
  let MyDevice := (LJB_DXGK_FindDevice h m).1.1 in
  (MyDevice = NULL <->
   forall q, q ∈ ClientDeviceListHead (GlobalDriverData m) -> handle_of m q ≠ h) /\
  (MyDevice ≠ NULL ->
   MyDevice ∈ ClientDeviceListHead (GlobalDriverData m) /\
   handle_of m MyDevice = h).
Proof.
  intros h m.
  assert (Hnull : NULL ∉ ClientDeviceListHead (GlobalDriverData m)).
  { intros Hin. apply list_elem_of_In in Hin. vm_compute in Hin.
    destruct Hin as [Heq | []]. discriminate Heq. }
  split; [exact Hnull|].
  exact (FindDevice_NULL_iff_not_registered h m Hnull).
Defined.
